(** * Coral Compatibility Test Suite

    A shallow embedding of [coral_cts.py]: the [TestSuite] aggregator (result
    and thermal records, the output sink, the summary that is prepended to the
    output file on scope exit), the hardware detector, the thermal sampler and
    the command-line driver, with the properties of the specification proved
    about them.

    The program is a sequence of effects on one mutable object and on the
    operating system.  It is embedded as a state-and-exception monad over a
    [State] that holds the [TestSuite] object and the [World] around it (file
    system, console, and the log of launched processes); what the interpreter
    and the operating system answer is read from an [Env]. *)

From Stdlib Require Import ZArith List Floats Lia.
From stdpp Require Import base gmap strings.

(** ** Text *)

Definition LF : string := String (Ascii.ascii_of_nat 10) "".

(** [s.startswith(p)] *)
Definition str_startswith (p s : string) : bool := String.prefix p s.

(** [s.endswith(p)] *)
Fixpoint str_endswith (p s : string) : bool :=
  String.eqb s p ||
  match s with
  | EmptyString => false
  | String _ rest => str_endswith p rest
  end.

(** [needle in hay] on strings *)
Fixpoint str_contains (needle hay : string) : bool :=
  String.prefix needle hay ||
  match hay with
  | EmptyString => false
  | String _ rest => str_contains needle rest
  end.

(** [''.join(l)] *)
Fixpoint str_concat (l : list string) : string :=
  match l with
  | [] => ""
  | s :: rest => s +:+ str_concat rest
  end.

(** [os.path.join(a, b)] of [posixpath], for two components. *)
Definition os_path_join (a b : string) : string :=
  if str_startswith "/" b then b
  else if String.eqb a "" || str_endswith "/" a then a +:+ b
  else a +:+ "/" +:+ b.

(** ** Dictionaries

    A Python [dict] keeps its keys in insertion order, and an assignment to a
    key that is present replaces the value where the key stands. *)

Definition dict (V : Type) : Type := list (string * V).

Fixpoint dict_set {V} (k : string) (v : V) (d : dict V) : dict V :=
  match d with
  | [] => [(k, v)]
  | (k', v') :: rest =>
      if String.eqb k k' then (k, v) :: rest else (k', v') :: dict_set k v rest
  end.

Fixpoint dict_get {V} (k : string) (d : dict V) : option V :=
  match d with
  | [] => None
  | (k', v') :: rest => if String.eqb k k' then Some v' else dict_get k rest
  end.

Definition dict_keys {V} (d : dict V) : list string := map fst d.
Definition dict_values {V} (d : dict V) : list V := map snd d.

(** [bool(d)] *)
Definition dict_nonempty {V} (d : dict V) : bool :=
  match d with [] => false | _ :: _ => true end.

(** The representation invariant: no key stands twice. *)
Fixpoint dict_wf {V} (d : dict V) : bool :=
  match d with
  | [] => true
  | (k, _) :: rest => negb (existsb (String.eqb k) (dict_keys rest)) && dict_wf rest
  end.

(** The dictionary after a sequence of assignments, oldest first. *)
Definition dict_of_records {V} (recs : list (string * V)) : dict V :=
  fold_left (fun d r => dict_set (fst r) (snd r) d) recs [].

(** ** Floating point

    A Python [float] is an IEEE 754 binary64 number, as is a primitive float
    of Rocq. *)

Abbreviation float := PrimFloat.float.

(** [x > y] *)
Definition float_gt (x y : float) : bool := PrimFloat.ltb y x.

(** The builtin [max] of a sequence: the first item is the candidate, and a
    later item replaces it when it compares greater. *)
Definition py_max (l : list float) : option float :=
  match l with
  | [] => None
  | x :: rest => Some (fold_left (fun m item => if float_gt item m then item else m) rest x)
  end.

(** ** Exceptions and the environment *)

Inductive exn : Type := Exception (cls : string) (msg : string).

(** [str(e)] *)
Definition str_exn (e : exn) : string :=
  match e with Exception _ msg => msg end.

(** The arguments of [subprocess.Popen] that vary: the command and [shell]. *)
Record command : Type := mkCommand { argv : list string; shell : bool }.

(** What launching a command gives: an exception out of [Popen]; or a child
    whose merged output is read line by line until it ends, and the return
    code that [wait] then stores; or a child whose output is read line by
    line until reading or decoding it raises an exception, with the return
    code the child ends with, which is then never looked at. *)
Inductive launch : Type :=
| LaunchError (e : exn)
| Running (lines : list string) (returncode : Z)
| ReadError (lines : list string) (e : exn) (returncode : Z).

(** The lines that are read from the child. *)
Definition output_lines (l : launch) : list string :=
  match l with
  | LaunchError _ => []
  | Running lines _ => lines
  | ReadError lines _ _ => lines
  end.

(** What the program asks of the interpreter and of the operating system. *)
Record Env : Type := mkEnv {
  getcwd : string;                          (* os.getcwd() *)
  sys_platform : string;                    (* sys.platform *)
  platform_platform : string;               (* platform.platform() *)
  popen : command -> launch;                (* subprocess.Popen and its pipe *)
  float_of_str : string -> option float;    (* float(s); None: ValueError *)
  str_of_float : float -> string;           (* str(x) *)
  isdir_test_data : bool;                   (* os.path.isdir(<cwd>/test_data) *)
  download_error : option exn;              (* urlopen and read of the archive *)
  extract_error : option exn;               (* unpack_archive and os.rename *)
  fetch_changes : gmap string (option string);
    (* what unpack_archive and os.rename do to the files, whether or not they
       raise: by path, the content written, or None for a file removed *)
  open_error : string -> option exn         (* open(path, "w"); None: no exception *)
}.

(** ** The state *)

(** A file object: the path it was opened at, and whether it is closed. *)
Record file_object : Type := mkFile { fo_name : string; fo_closed : bool }.

Record TestSuite : Type := mkTestSuite {
  results : dict bool;
  file_path : string;
  file : file_object;
  tpus : nat;
  pci : bool;
  usb : bool;
  thermals : dict float
}.

Record World : Type := mkWorld {
  fs : gmap string string;      (* the files, by path *)
  stdout : string;              (* the console *)
  spawned : list command        (* the commands given to Popen, oldest first *)
}.

Record State : Type := mkState { self : TestSuite; world : World }.

Definition set_results (r : dict bool) (s : TestSuite) : TestSuite :=
  mkTestSuite r (file_path s) (file s) (tpus s) (pci s) (usb s) (thermals s).
Definition set_file (f : file_object) (s : TestSuite) : TestSuite :=
  mkTestSuite (results s) (file_path s) f (tpus s) (pci s) (usb s) (thermals s).
Definition set_tpus (n : nat) (s : TestSuite) : TestSuite :=
  mkTestSuite (results s) (file_path s) (file s) n (pci s) (usb s) (thermals s).
Definition set_pci (b : bool) (s : TestSuite) : TestSuite :=
  mkTestSuite (results s) (file_path s) (file s) (tpus s) b (usb s) (thermals s).
Definition set_usb (b : bool) (s : TestSuite) : TestSuite :=
  mkTestSuite (results s) (file_path s) (file s) (tpus s) (pci s) b (thermals s).
Definition set_thermals (t : dict float) (s : TestSuite) : TestSuite :=
  mkTestSuite (results s) (file_path s) (file s) (tpus s) (pci s) (usb s) t.

Definition set_fs (f : gmap string string) (w : World) : World :=
  mkWorld f (stdout w) (spawned w).
Definition set_stdout (o : string) (w : World) : World :=
  mkWorld (fs w) o (spawned w).
Definition set_spawned (c : list command) (w : World) : World :=
  mkWorld (fs w) (stdout w) c.

(** ** The monad: state and exceptions *)

Inductive res (A : Type) : Type :=
| Ret (a : A)
| Raise (e : exn).
Arguments Ret {A} a.
Arguments Raise {A} e.

Definition M (A : Type) : Type := State -> res A * State.

Definition ret {A} (a : A) : M A := fun st => (Ret a, st).

Definition raise {A} (e : exn) : M A := fun st => (Raise e, st).

Definition bind {A B} (m : M A) (k : A -> M B) : M B :=
  fun st =>
    match m st with
    | (Ret a, st') => k a st'
    | (Raise e, st') => (Raise e, st')
    end.

(** [try: m  except Exception as e: h e] *)
Definition try_except {A} (m : M A) (h : exn -> M A) : M A :=
  fun st =>
    match m st with
    | (Ret a, st') => (Ret a, st')
    | (Raise e, st') => h e st'
    end.

Declare Scope py_scope.
Delimit Scope py_scope with py.
Notation "x <- m ;; k" := (bind m (fun x => k))
  (at level 100, m at next level, right associativity) : py_scope.
Notation "m ;; k" := (bind m (fun _ => k))
  (at level 100, right associativity) : py_scope.
Open Scope py_scope.

Definition get_self : M TestSuite := fun st => (Ret (self st), st).
Definition get_world : M World := fun st => (Ret (world st), st).
Definition update_self (f : TestSuite -> TestSuite) : M unit :=
  fun st => (Ret tt, mkState (f (self st)) (world st)).
Definition update_world (f : World -> World) : M unit :=
  fun st => (Ret tt, mkState (self st) (f (world st))).

(** [if c: m] *)
Definition when (c : bool) (m : M unit) : M unit := if c then m else ret tt.

(** [for x in l: body x] *)
Fixpoint for_each {A} (l : list A) (body : A -> M unit) : M unit :=
  match l with
  | [] => ret tt
  | x :: rest => body x ;; for_each rest body
  end.

(** [for x in l: acc = body x acc], for a loop that carries local variables *)
Fixpoint for_fold {A S} (l : list A) (acc : S) (body : A -> S -> M S) : M S :=
  match l with
  | [] => ret acc
  | x :: rest => acc' <- body x acc ;; for_fold rest acc' body
  end.

(** [d[k]] *)
Definition dict_getitem {V} (k : string) (d : dict V) : M V :=
  match dict_get k d with
  | Some v => ret v
  | None => raise (Exception "KeyError" ("'" +:+ k +:+ "'"))
  end.

(** ** Files, console and processes *)

Definition FileNotFoundError (path : string) : exn :=
  Exception "FileNotFoundError"
            ("[Errno 2] No such file or directory: '" +:+ path +:+ "'").

(** [f.write(message); f.flush()] on the file object of the suite *)
Definition file_write (message : string) : M unit :=
  s <- get_self ;;
  if fo_closed (file s)
  then raise (Exception "ValueError" "I/O operation on closed file.")
  else update_world (fun w =>
         set_fs (<[fo_name (file s) :=
                   default "" (fs w !! fo_name (file s)) +:+ message]> (fs w)) w).

(** [self.file.close()] *)
Definition file_close : M unit :=
  update_self (fun s => set_file (mkFile (fo_name (file s)) true) s).

(** [sys.stdout.write(message)] *)
Definition stdout_write (message : string) : M unit :=
  update_world (fun w => set_stdout (stdout w +:+ message) w).

(** [print(message)] *)
Definition print (message : string) : M unit := stdout_write (message +:+ LF).

(** [open(path, "r")]: the file has to be there. *)
Definition open_read (path : string) : M unit :=
  w <- get_world ;;
  match fs w !! path with
  | Some _ => ret tt
  | None => raise (FileNotFoundError path)
  end.

(** [f.read()] of a file opened at [path] *)
Definition path_read (path : string) : M string :=
  w <- get_world ;;
  match fs w !! path with
  | Some content => ret content
  | None => raise (FileNotFoundError path)
  end.

(** [open(path, "w")] where the summary opens it, for the temporary file
    beside the output file that the constructor has opened: the file is
    created, or cut to nothing. *)
Definition open_write (path : string) : M unit :=
  update_world (fun w => set_fs (<[path := ""]> (fs w)) w).

(** [f.write(message)] of a file opened for writing at [path] *)
Definition path_write (path message : string) : M unit :=
  update_world (fun w =>
    set_fs (<[path := default "" (fs w !! path) +:+ message]> (fs w)) w).

(** [os.rename(src, dst)] *)
Definition os_rename (src dst : string) : M unit :=
  w <- get_world ;;
  match fs w !! src with
  | Some content =>
      update_world (fun w => set_fs (<[dst := content]> (delete src (fs w))) w)
  | None => raise (FileNotFoundError src)
  end.

(** The object that [Popen] returns: the lines its pipe yields, the exception
    that reading the pipe raises after them, if any, and the return code. *)
Record process : Type := mkProcess {
  proc_stdout : list string;
  proc_broken : option exn;
  proc_returncode : Z
}.

(** [subprocess.Popen(c, stdout=PIPE, stderr=STDOUT, universal_newlines=True)]:
    the command is logged; [Popen] raises, or returns the process. *)
Definition Popen (env : Env) (c : command) : M process :=
  update_world (fun w => set_spawned (spawned w ++ [c]) w) ;;
  match popen env c with
  | LaunchError e => raise e
  | Running lines returncode => ret (mkProcess lines None returncode)
  | ReadError lines e returncode => ret (mkProcess lines (Some e) returncode)
  end.

(** [for line in proc.stdout: body line]: the body runs on every line that
    is read, and then the loop ends or the read raises. *)
Definition for_lines (proc : process) (body : string -> M unit) : M unit :=
  for_each (proc_stdout proc) body ;;
  match proc_broken proc with
  | Some e => raise e
  | None => ret tt
  end.

(** ** The module's constants *)

Definition CTS_HEADER : string :=
  "#####################################################" +:+ LF +:+
  "        Coral Compatibility Test Suite" +:+ LF +:+
  "#####################################################" +:+ LF +:+ LF.

Definition SECTION_HEADER : string :=
  "-----------------------------------------------------" +:+ LF.

(** ** class TestSuite *)

(** The new suite and the world once [open(file_path, "w")] has returned:
    the file is created, or cut to nothing. *)
Definition opened (file_path : string) (w : World) : State :=
  mkState (mkTestSuite [] file_path (mkFile file_path false) 0 false false [])
          (set_fs (<[file_path := ""]> (fs w)) w).

(** [TestSuite.__init__(self, file_path)]: [open] raises, and there is no
    suite and no change to the world, or it returns. *)
Definition TestSuite__init__ (env : Env) (file_path : string) (w : World)
  : res State :=
  match open_error env file_path with
  | Some e => Raise e
  | None => Ret (opened file_path w)
  end.

Definition _file_print (message : string) : M unit :=
  file_write message ;;
  stdout_write message.

Definition _run_linux_system_command
    (env : Env) (header : string) (command : list string) (output_parse : string)
  : M unit :=
  _file_print (LF +:+ "***** " +:+ header +:+ " *****" +:+ LF) ;;
  try_except
    (proc <- Popen env (mkCommand command false) ;;
     for_lines proc (fun line =>
       when (String.eqb output_parse "" || str_contains output_parse line)
            (_file_print line)))
    (fun e => _file_print (str_exn e +:+ LF)).

Definition _write_thermal_summary (env : Env) : M unit :=
  _file_print (LF +:+ SECTION_HEADER) ;;
  _file_print ("Temperatures During Tests" +:+ LF) ;;
  _file_print SECTION_HEADER ;;
  s <- get_self ;;
  for_each (dict_keys (thermals s)) (fun test =>
    s <- get_self ;;
    t <- dict_getitem test (thermals s) ;;
    _file_print (test +:+ ": " +:+ str_of_float env t +:+ LF)) ;;
  _file_print LF.

(** The text of a verdict. *)
Definition passed_or_failed (b : bool) : string :=
  if b then "Passed" else "Failed".

Definition _write_summary (env : Env) : M unit :=
  s <- get_self ;;
  when (dict_nonempty (thermals s)) (_write_thermal_summary env) ;;
  file_close ;;
  s <- get_self ;;
  let temp_path := file_path s +:+ ".tmp" in
  let summary := CTS_HEADER in
  open_read (file_path s) ;;
  open_write temp_path ;;
  let overall_passed := true in
  acc <- for_fold (dict_keys (results s)) (summary, overall_passed)
           (fun test acc =>
              s <- get_self ;;
              r <- dict_getitem test (results s) ;;
              ret (fst acc +:+ (test +:+ ": " +:+ passed_or_failed r +:+ LF),
                   snd acc && r)) ;;
  let summary := fst acc in
  let overall_passed := snd acc in
  s <- get_self ;;
  summary <- (if dict_nonempty (thermals s)
              then match py_max (dict_values (thermals s)) with
                   | Some max_temp =>
                       ret (summary +:+ LF +:+ "Max Temperature (C): "
                                    +:+ str_of_float env max_temp)
                   | None =>
                       raise (Exception "ValueError" "max() arg is an empty sequence")
                   end
              else ret summary) ;;
  let summary :=
    summary +:+ LF +:+ "Overall Compatibility: "
            +:+ passed_or_failed overall_passed +:+ LF in
  print (LF +:+ summary) ;;
  path_write temp_path summary ;;
  path_write temp_path (LF +:+ LF) ;;
  content <- path_read (file_path s) ;;
  path_write temp_path content ;;
  os_rename temp_path (file_path s).

(** [TestSuite.__exit__] *)
Definition TestSuite__exit__ (env : Env) : M unit := _write_summary env.

(** The loop [for line in proc.stdout: temperatures.append(float(line) / 1000.0)]
    of [_read_temperatures]: the list as it stands when the output ends or
    [float] raises, and the exception if it did. *)
Fixpoint append_temperatures
    (env : Env) (lines : list string) (temperatures : list float)
  : list float * option exn :=
  match lines with
  | [] => (temperatures, None)
  | line :: rest =>
      match float_of_str env line with
      | Some x => append_temperatures env rest (temperatures ++ [(x / 1000)%float])
      | None =>
          (temperatures,
           Some (Exception "ValueError" ("could not convert string to float: " +:+ line)))
      end
  end.

Definition _read_temperatures (env : Env) (current_test : string) : M unit :=
  let command := ["cat /sys/class/apex/apex_*/temp"] in
  temperatures <-
    try_except
      (proc <- Popen env (mkCommand command true) ;;
       ret (fst (append_temperatures env (proc_stdout proc) [])))
      (fun e => ret []) ;;
  match temperatures with
  | [] => ret tt
  | _ :: _ =>
      match py_max temperatures with
      | Some m =>
          update_self (fun s => set_thermals (dict_set current_test m (thermals s)) s)
      | None => raise (Exception "ValueError" "max() arg is an empty sequence")
      end
  end.

Definition run_test (env : Env) (test : list string) : M unit :=
  match test with
  | [] => raise (Exception "IndexError" "list index out of range")
  | current_test :: args =>
      _file_print (LF +:+ SECTION_HEADER) ;;
      _file_print (current_test +:+ LF) ;;
      _file_print SECTION_HEADER ;;
      let test := (getcwd env +:+ "/" +:+ current_test) :: args in
      proc <-
        try_except
          (proc <- Popen env (mkCommand test false) ;;
           for_lines proc _file_print ;;
           ret (Some proc))
          (fun e =>
             _file_print (str_exn e +:+ LF) ;;
             update_self (fun s => set_results (dict_set current_test false (results s)) s) ;;
             ret None) ;;
      match proc with
      | None => ret tt
      | Some proc =>
          s <- get_self ;;
          when (pci s && String.eqb (sys_platform env) "linux")
               (_read_temperatures env current_test) ;;
          if negb (Z.eqb (proc_returncode proc) 0)
          then update_self (fun s => set_results (dict_set current_test false (results s)) s)
          else update_self (fun s => set_results (dict_set current_test true (results s)) s)
      end
  end.

Definition detect_tpus (env : Env) : M nat :=
  let test := "lstpu" in
  let test_path := os_path_join (getcwd env) test in
  _file_print (LF +:+ SECTION_HEADER) ;;
  _file_print ("Detected TPUs (lstpu)" +:+ LF) ;;
  _file_print SECTION_HEADER ;;
  try_except
    (proc <- Popen env (mkCommand [test_path] false) ;;
     for_lines proc (fun line =>
       s <- get_self ;;
       when (negb (pci s) && str_contains "PCI" line) (update_self (set_pci true)) ;;
       s <- get_self ;;
       when (negb (usb s) && str_contains "USB" line) (update_self (set_usb true)) ;;
       update_self (fun s => set_tpus (tpus s + 1) s) ;;
       _file_print line))
    (fun e => _file_print (str_exn e +:+ LF)) ;;
  s <- get_self ;;
  (if negb (Nat.eqb (tpus s) 0)
   then update_self (fun s => set_results (dict_set test true (results s)) s)
   else update_self (fun s => set_results (dict_set test false (results s)) s) ;;
        _file_print ("No TPUs detected" +:+ LF)) ;;
  s <- get_self ;;
  ret (tpus s).

Definition print_system_info (env : Env) : M unit :=
  _file_print (LF +:+ "-----------------------------------------------------" +:+ LF) ;;
  _file_print ("System Info" +:+ LF) ;;
  _file_print ("-----------------------------------------------------" +:+ LF) ;;
  _file_print (platform_platform env +:+ LF) ;;
  when (String.eqb (sys_platform env) "linux")
    (s <- get_self ;;
     if pci s then
       _run_linux_system_command env "TPU Kernel Messages" ["dmesg"] "apex" ;;
       _run_linux_system_command env "PCI Info" ["lspci"; "-vvv"; "-d 1ac1:089a"] ""
     else if usb s then
       _run_linux_system_command env "USB Devices" ["lsusb"] "" ;;
       _run_linux_system_command env "USB Tree" ["lsusb"; "-t"] "" ;;
       _run_linux_system_command env "USB Detailed Info (TPU in standard mode)"
                                 ["lsusb"; "-v"; "-d 18d1:9302"] "" ;;
       _run_linux_system_command env "USB Detailed Info (TPU in DFU mode)"
                                 ["lsusb"; "-v"; "-d 1a6e:089a"] ""
     else ret tt).

(** ** The driver *)

(** [with TestSuite(...) as cts: body]: [__enter__] gives the object itself;
    [__exit__] runs whether the body raised or not, and returns nothing, so an
    exception of the body is raised again after it. *)
Definition with_suite (env : Env) (body : M unit) : M unit :=
  fun st =>
    match body st with
    | (Ret _, st') => TestSuite__exit__ env st'
    | (Raise e, st') =>
        match TestSuite__exit__ env st' with
        | (Ret _, st'') => (Raise e, st'')
        | (Raise e', st'') => (Raise e', st'')
        end
    end.

(** The parsed command line. *)
Record Namespace : Type := mkNamespace { test_name : string; output : string }.

(** The defaults of the two options. *)
Definition default_args : Namespace := mkNamespace "tflite_utils_test" "cts.txt".

(** The tests of [main], selected by [test_name]; [tpus] is the local variable
    of that name. *)
Definition run_selected (env : Env) (tpus : Z) (test_name : string) : M unit :=
  when (String.eqb test_name "tflite_utils_test")
    (run_test env ["tflite_utils_test"]) ;;
  when (String.eqb test_name "inference_stress_test")
    (run_test env ["inference_stress_test";
                   "--stress_test_runs=10000"; "--stress_with_sleep_test_runs=200"]) ;;
  when (String.eqb test_name "model_loading_stress_test")
    (run_test env ["model_loading_stress_test"; "--stress_test_runs=50"]) ;;
  when (String.eqb test_name "inference_repeatability_test")
    (run_test env ["inference_repeatability_test";
                   "--stress_test_runs=1000"; "--gtest_repeat=20"]) ;;
  when (String.eqb test_name "classification_models_test")
    (run_test env ["classification_models_test"; "--gtest_repeat=10";
                   "--gtest_filter=-*tfhub_tf2_resnet_50_imagenet_ptq*"]) ;;
  when (String.eqb test_name "detection_models_test")
    (run_test env ["detection_models_test"; "--gtest_repeat=100"]) ;;
  when (String.eqb test_name "segmentation_models_test")
    (run_test env ["segmentation_models_test"; "--gtest_repeat=100"]) ;;
  when ((1 <? tpus)%Z && String.eqb test_name "multiple_tpus_inference_stress_test")
    (run_test env ["multiple_tpus_inference_stress_test"; "--num_inferences=5000"]) ;;
  when (String.eqb test_name "models_benchmark")
    (run_test env ["models_benchmark"; "--benchmark_color=false"]).

(** The body of the [with] statement of [main]. *)
Definition main_body (env : Env) (args : Namespace) : M unit :=
  let tpus := 1%Z in
  print_system_info env ;;
  run_selected env tpus (test_name args).

(** How [main] ends: with an exception before there is a suite (the test
    data could not be fetched, or the output file could not be opened); or
    the [with] statement was left, with or without an exception. *)
Inductive main_result : Type :=
| Aborted (e : exn) (w : World)
| Completed (r : res unit) (st : State).

(** [print] before the suite exists. *)
Definition console (message : string) (w : World) : World :=
  set_stdout (stdout w +:+ message +:+ LF) w.

(** The files after [unpack_archive] and [os.rename] did what they do.  The
    download itself leaves no file: the archive goes to a temporary file that
    is removed when its [with] statement is left. *)
Definition apply_changes (changes : gmap string (option string))
    (files : gmap string string) : gmap string string :=
  merge (fun change old =>
           match change with
           | Some (Some content) => Some content
           | Some None => None
           | None => old
           end) changes files.

Definition unpacked (env : Env) (w : World) : World :=
  set_fs (apply_changes (fetch_changes env) (fs w)) w.

Definition main (env : Env) (args : Namespace) (w : World) : main_result :=
  let output_file := os_path_join (getcwd env) (test_name args +:+ ".txt") in
  let run (w : World) :=
    match TestSuite__init__ env output_file w with
    | Raise e => Aborted e w
    | Ret cts =>
        let (r, st) := with_suite env (main_body env args) cts in
        Completed r st
    end in
  if isdir_test_data env then run w
  else
    let w := console "Test data not found, downloading..." w in
    match download_error env with
    | Some e => Aborted e w
    | None =>
        let w := console "Download complete, extracting..." w in
        let w := unpacked env w in
        match extract_error env with
        | Some e => Aborted e w
        | None => run w
        end
    end.

(** * Reading the model

    Definitions that describe states and texts; the program does not run
    them, the theorems below relate them to what the program does. *)

(** The content of the file the suite writes to. *)
Definition file_content (st : State) : string :=
  default "" (fs (world st) !! fo_name (file (self st))).

(** The state after [message] went to the file and to the console. *)
Definition emit (message : string) (st : State) : State :=
  mkState (self st)
          (mkWorld (<[fo_name (file (self st)) := file_content st +:+ message]>
                      (fs (world st)))
                   (stdout (world st) +:+ message)
                   (spawned (world st))).

(** A suite in working order: its file is open, is the file at [file_path]
    and exists, and no key stands twice in either record. *)
Definition suite_ok (st : State) : bool :=
  negb (fo_closed (file (self st)))
  && String.eqb (fo_name (file (self st))) (file_path (self st))
  && bool_decide (is_Some (fs (world st) !! file_path (self st)))
  && dict_wf (results (self st))
  && dict_wf (thermals (self st)).

(** A maximum of a sequence of floats: an item of the sequence that no item
    is above, and that every item is below or equal to when neither is a NaN. *)
Definition is_maximum (m : float) (l : list float) : Prop :=
  In m l /\
  (forall x, In x l -> float_gt x m = false) /\
  (forall x, In x l -> PrimFloat.is_nan x = false -> PrimFloat.is_nan m = false ->
             PrimFloat.leb x m = true).

(** The parts of the summary. *)
Definition result_line (r : string * bool) : string :=
  fst r +:+ ": " +:+ passed_or_failed (snd r) +:+ LF.

Definition result_lines (rs : dict bool) : string :=
  str_concat (map result_line rs).

Definition max_temperature_line (env : Env) (th : dict float) : string :=
  match py_max (dict_values th) with
  | Some m => LF +:+ "Max Temperature (C): " +:+ str_of_float env m
  | None => ""
  end.

Definition overall_line (rs : dict bool) : string :=
  LF +:+ "Overall Compatibility: " +:+ passed_or_failed (forallb snd rs) +:+ LF.

Definition summary_text (env : Env) (rs : dict bool) (th : dict float) : string :=
  CTS_HEADER +:+ result_lines rs +:+ max_temperature_line env th +:+ overall_line rs.

(** The block of temperatures that goes to the sink ahead of the summary,
    when there are any. *)
Definition thermal_line (env : Env) (r : string * float) : string :=
  fst r +:+ ": " +:+ str_of_float env (snd r) +:+ LF.

Definition thermal_block (env : Env) (th : dict float) : string :=
  if dict_nonempty th
  then LF +:+ SECTION_HEADER +:+ "Temperatures During Tests" +:+ LF +:+ SECTION_HEADER
       +:+ str_concat (map (thermal_line env) th) +:+ LF
  else "".

(** The state after the summary was written: the file object is closed, the
    file holds the summary, two newlines and what it held before, and the
    temporary file is gone. *)
Definition finalized (env : Env) (st : State) : State :=
  let s := self st in
  let pre := file_content st +:+ thermal_block env (thermals s) in
  let summary := summary_text env (results s) (thermals s) in
  mkState (set_file (mkFile (fo_name (file s)) true) s)
          (mkWorld (<[file_path s := summary +:+ LF +:+ LF +:+ pre]>
                      (delete (file_path s +:+ ".tmp") (fs (world st))))
                   (stdout (world st) +:+ thermal_block env (thermals s)
                                      +:+ LF +:+ summary +:+ LF)
                   (spawned (world st))).

(** The lines that [float] reads, up to the first it does not. *)
Fixpoint parsed_prefix (env : Env) (lines : list string) : list float :=
  match lines with
  | [] => []
  | line :: rest =>
      match float_of_str env line with
      | Some x => x :: parsed_prefix env rest
      | None => []
      end
  end.

(** The command of the thermal sampler, and the readings it obtains: the
    values read before the first failure, in degrees. *)
Definition cat_command : command :=
  mkCommand ["cat /sys/class/apex/apex_*/temp"] true.

Definition readings (env : Env) : list float :=
  map (fun x => (x / 1000)%float)
      (parsed_prefix env (output_lines (popen env cat_command))).

(** A read failure: the command does not launch, or a line of its output is
    not a number, or reading its output raises. *)
Definition read_failure (env : Env) : Prop :=
  (exists e, popen env cat_command = LaunchError e) \/
  (exists line, In line (output_lines (popen env cat_command))
                /\ float_of_str env line = None) \/
  (exists lines e returncode,
     popen env cat_command = ReadError lines e returncode).

(** The state after a command was given to [Popen]. *)
Definition spawn (c : command) (st : State) : State :=
  mkState (self st) (set_spawned (spawned (world st) ++ [c]) (world st)).

(** The state after a result was recorded. *)
Definition record (name : string) (b : bool) (st : State) : State :=
  mkState (set_results (dict_set name b (results (self st))) (self st)) (world st).

(** The state after the thermal sampler ran. *)
Definition sampled (env : Env) (current_test : string) (st : State) : State :=
  mkState (match py_max (readings env) with
           | Some m => set_thermals (dict_set current_test m (thermals (self st))) (self st)
           | None => self st
           end)
          (world (spawn cat_command st)).

(** The command [run_test] launches, and the heading it prints. *)
Definition test_command (env : Env) (current_test : string) (args : list string)
  : command :=
  mkCommand ((getcwd env +:+ "/" +:+ current_test) :: args) false.

Definition test_heading (current_test : string) : string :=
  LF +:+ SECTION_HEADER +:+ current_test +:+ LF +:+ SECTION_HEADER.

(** The state after [run_test] of [current_test :: args]. *)
Definition tested (env : Env) (current_test : string) (args : list string)
    (st : State) : State :=
  let c := test_command env current_test args in
  match popen env c with
  | LaunchError e =>
      record current_test false
        (emit (test_heading current_test +:+ str_exn e +:+ LF) (spawn c st))
  | Running lines returncode =>
      let st1 := emit (test_heading current_test +:+ str_concat lines) (spawn c st) in
      let st2 := if pci (self st) && String.eqb (sys_platform env) "linux"
                 then sampled env current_test st1 else st1 in
      record current_test (Z.eqb returncode 0) st2
  | ReadError lines e _ =>
      record current_test false
        (emit (test_heading current_test +:+ str_concat lines +:+ str_exn e +:+ LF)
              (spawn c st))
  end.

(** The command of the hardware detector, and the suite after its loop over
    the lines of the output. *)
Definition lstpu_command (env : Env) : command :=
  mkCommand [os_path_join (getcwd env) "lstpu"] false.

Definition counted (lines : list string) (s : TestSuite) : TestSuite :=
  mkTestSuite (results s) (file_path s) (file s)
              (tpus s + length lines)
              (pci s || existsb (str_contains "PCI") lines)
              (usb s || existsb (str_contains "USB") lines)
              (thermals s).

Definition lstpu_heading : string :=
  LF +:+ SECTION_HEADER +:+ "Detected TPUs (lstpu)" +:+ LF +:+ SECTION_HEADER.

(** The state after [detect_tpus]. *)
Definition detected (env : Env) (st : State) : State :=
  let c := lstpu_command env in
  let lines := output_lines (popen env c) in
  let failure := match popen env c with
                 | LaunchError e => str_exn e +:+ LF
                 | Running _ _ => ""
                 | ReadError _ e _ => str_exn e +:+ LF
                 end in
  let s := counted lines (self st) in
  let found := negb (Nat.eqb (tpus s) 0) in
  record "lstpu" found
    (emit (lstpu_heading +:+ str_concat lines +:+ failure
           +:+ (if found then "" else "No TPUs detected" +:+ LF))
          (mkState s (world (spawn c st)))).

(** What [print_system_info] prints when neither bus was detected. *)
Definition system_info_text (env : Env) : string :=
  LF +:+ "-----------------------------------------------------" +:+ LF
  +:+ "System Info" +:+ LF
  +:+ "-----------------------------------------------------" +:+ LF
  +:+ platform_platform env +:+ LF.

(** The dispatch table of the specification: test name, fixed arguments. *)
Definition dispatch_table : list (string * list string) :=
  [ ("tflite_utils_test", []);
    ("inference_stress_test",
     ["--stress_test_runs=10000"; "--stress_with_sleep_test_runs=200"]);
    ("model_loading_stress_test", ["--stress_test_runs=50"]);
    ("inference_repeatability_test", ["--stress_test_runs=1000"; "--gtest_repeat=20"]);
    ("classification_models_test",
     ["--gtest_repeat=10"; "--gtest_filter=-*tfhub_tf2_resnet_50_imagenet_ptq*"]);
    ("detection_models_test", ["--gtest_repeat=100"]);
    ("segmentation_models_test", ["--gtest_repeat=100"]);
    ("multiple_tpus_inference_stress_test", ["--num_inferences=5000"]);
    ("models_benchmark", ["--benchmark_color=false"]) ].

(** The entry of the table that a selector and a count of accelerators
    select: the name has to match exactly, and the multi-device test needs
    more than one accelerator. *)
Definition selected (tpus : Z) (test_name : string) : option (list string) :=
  match dict_get test_name dispatch_table with
  | Some args =>
      if String.eqb test_name "multiple_tpus_inference_stress_test"
         && negb (1 <? tpus)%Z
      then None
      else Some args
  | None => None
  end.

(** The path of the output file of [main]. *)
Definition output_file (env : Env) (args : Namespace) : string :=
  os_path_join (getcwd env) (test_name args +:+ ".txt").

(** Whether [main] gets past the test data, and the world when it does. *)
Definition fetched (env : Env) : bool :=
  isdir_test_data env
  || match download_error env, extract_error env with
     | None, None => true
     | _, _ => false
     end.

Definition after_fetch (env : Env) (w : World) : World :=
  if isdir_test_data env then w
  else unpacked env
         (console "Download complete, extracting..."
                  (console "Test data not found, downloading..." w)).

(** The state of [main] when the body of its [with] statement ends. *)
Definition main_state (env : Env) (args : Namespace) (w : World) : State :=
  let st := emit (system_info_text env)
                 (opened (output_file env args) (after_fetch env w)) in
  match selected 1 (test_name args) with
  | Some a => tested env (test_name args) a st
  | None => st
  end.

(** * Sample environments

    Concrete inputs on which the theorems are exercised. *)

(** [float] on the lines of the samples: a line of digits is the number it
    spells, a message of [cat] is not a number. *)
Definition sample_float (s : string) : option float :=
  if String.eqb s ("45000" +:+ LF) then Some 45000%float
  else if String.eqb s ("52000" +:+ LF) then Some 52000%float
  else if String.eqb s ("41500" +:+ LF) then Some 41500%float
  else None.

(** [str] on the temperatures of the samples. *)
Definition sample_str (x : float) : string :=
  if PrimFloat.eqb x 45 then "45.0"
  else if PrimFloat.eqb x 52 then "52.0"
  else if PrimFloat.eqb x 41.5 then "41.5"
  else "nan".

Definition no_such_file (path : string) : exn :=
  Exception "FileNotFoundError"
            ("[Errno 2] No such file or directory: '" +:+ path +:+ "'").

(** A Linux machine with the test data at hand, on which commands answer as
    [answers] says. *)
Definition sample_env (answers : command -> launch) : Env :=
  mkEnv "/home/cts" "linux" "Linux-5.10.0-x86_64" answers
        sample_float sample_str true None None ∅ (fun _ => None).

(** No executable is installed: every launch fails. *)
Definition nothing_installed (c : command) : launch :=
  LaunchError (no_such_file (hd "" (argv c))).

(** Every command runs, prints one line and exits with 0. *)
Definition all_pass (c : command) : launch :=
  Running ["[  PASSED  ] 1 test." +:+ LF] 0.

(** The first sensor reads 45000, the second cannot be read. *)
Definition one_sensor_unreadable (c : command) : launch :=
  Running ["45000" +:+ LF;
           "cat: /sys/class/apex/apex_1/temp: Permission denied" +:+ LF] 1.

(** Two accelerators, one on each bus. *)
Definition two_tpus (c : command) : launch :=
  Running ["/sys/bus/PCI/devices/0000:01:00.0" +:+ LF;
           "/sys/bus/USB/devices/2-1" +:+ LF] 0.

Definition empty_world : World := mkWorld ∅ "" [].

(** A suite that has captured some output. *)
Definition sample_suite : State :=
  emit ("captured output" +:+ LF)
       (opened "/home/cts/tflite_utils_test.txt" empty_world).

(** The suite of scenario 7 of the specification with the thermals of
    scenario 8. *)
Definition sample_recorded : State :=
  let st := record "tflite_utils_test" true (record "lstpu" false sample_suite) in
  mkState (set_thermals [("detection_models_test", 41.5%float);
                         ("classification_models_test", 52%float)] (self st))
          (world st).

(** * Tactics *)

(** Evaluates the comparisons of strings that are closed. *)
Ltac eval_eqb :=
  repeat match goal with
         | |- context [String.eqb ?a ?b] =>
             let v := eval vm_compute in (String.eqb a b) in
             match v with
             | true => change (String.eqb a b) with true
             | false => change (String.eqb a b) with false
             end
         end.


(** * Reading the model, continued *)

(** Whether [_run_linux_system_command] echoes a line: every line when
    [output_parse] is empty, the lines that contain it otherwise. *)
Definition line_wanted (output_parse line : string) : bool :=
  String.eqb output_parse "" || str_contains output_parse line.

(** The heading of a diagnostic command. *)
Definition command_heading (header : string) : string :=
  LF +:+ "***** " +:+ header +:+ " *****" +:+ LF.

(** What a diagnostic command adds to the sink after its heading: the
    message of the exception when it does not launch; otherwise the lines
    wanted among those read, and then the message of the exception when
    reading raised. *)
Definition command_output (env : Env) (command : list string) (output_parse : string)
  : string :=
  match popen env (mkCommand command false) with
  | LaunchError e => str_exn e +:+ LF
  | Running lines _ => str_concat (List.filter (line_wanted output_parse) lines)
  | ReadError lines e _ =>
      str_concat (List.filter (line_wanted output_parse) lines) +:+ str_exn e +:+ LF
  end.

(** The state after [_run_linux_system_command]. *)
Definition commanded (env : Env) (header : string) (command : list string)
    (output_parse : string) (st : State) : State :=
  emit (command_heading header +:+ command_output env command output_parse)
       (spawn (mkCommand command false) st).

(** The diagnostic commands of [print_system_info], by platform and by
    what is attached: heading, command, filter. *)
Definition diagnostics (env : Env) (s : TestSuite)
  : list (string * list string * string) :=
  if String.eqb (sys_platform env) "linux" then
    if pci s then
      [ ("TPU Kernel Messages", ["dmesg"], "apex");
        ("PCI Info", ["lspci"; "-vvv"; "-d 1ac1:089a"], "") ]
    else if usb s then
      [ ("USB Devices", ["lsusb"], "");
        ("USB Tree", ["lsusb"; "-t"], "");
        ("USB Detailed Info (TPU in standard mode)", ["lsusb"; "-v"; "-d 18d1:9302"], "");
        ("USB Detailed Info (TPU in DFU mode)", ["lsusb"; "-v"; "-d 1a6e:089a"], "") ]
    else []
  else [].

(** The state after [print_system_info]. *)
Definition informed (env : Env) (st : State) : State :=
  fold_left (fun st d => commanded env (fst (fst d)) (snd (fst d)) (snd d) st)
            (diagnostics env (self st))
            (emit (system_info_text env) st).

(** The console shows [base] and then what the file of the suite holds. *)
Definition mirrored (base : string) (st : State) : Prop :=
  stdout (world st) = base +:+ file_content st.

(** Whether a command launches and its output is read to the end. *)
Definition runs_to_exit (env : Env) (c : command) : bool :=
  match popen env c with
  | Running _ _ => true
  | LaunchError _ | ReadError _ _ _ => false
  end.

(** A machine with an accelerator on PCI whose sensors read 41500 and
    52000, and on which every other command prints one line and exits
    with 0. *)
Definition two_sensors (c : command) : launch :=
  if shell c then Running ["41500" +:+ LF; "52000" +:+ LF] 0
  else Running ["ok" +:+ LF] 0.





(** The machine of [sample_env] with the test data missing: the archive is
    fetched and extracted, which leaves one file. *)
Definition sample_env_fetching (answers : command -> launch) : Env :=
  mkEnv "/home/cts" "linux" "Linux-5.10.0-x86_64" answers
        sample_float sample_str false None None
        {["/home/cts/test_data/README.md" := Some "test data"]} (fun _ => None).

(** The sample suite with an accelerator detected on PCI. *)
Definition sample_pci_suite : State :=
  mkState (set_pci true (self sample_suite)) (world sample_suite).

(** * Properties *)

(** ** Text *)

Lemma str_app_cons (a : Ascii.ascii) (s t : string) :
  String a s +:+ t = String a (s +:+ t).
Proof. reflexivity. Qed.

Lemma str_app_nil_l (s : string) : "" +:+ s = s.
Proof. reflexivity. Qed.

Lemma str_app_nil_r (s : string) : s +:+ "" = s.
Proof. induction s as [|a s IH]; [reflexivity|]. rewrite str_app_cons, IH. reflexivity. Qed.

Lemma str_app_assoc (s t u : string) : (s +:+ t) +:+ u = s +:+ (t +:+ u).
Proof.
  induction s as [|a s IH]; [reflexivity|].
  rewrite !str_app_cons, IH. reflexivity.
Qed.

Lemma str_length_app (s t : string) :
  String.length (s +:+ t) = String.length s + String.length t.
Proof.
  induction s as [|a s IH]; [reflexivity|].
  rewrite str_app_cons. simpl. rewrite IH. reflexivity.
Qed.

Lemma str_app_neq_self (s t : string) : t <> "" -> s +:+ t <> s.
Proof.
  intros Ht Heq. apply (f_equal String.length) in Heq.
  rewrite str_length_app in Heq. destruct t; [congruence|]. simpl in Heq. lia.
Qed.

(** Two texts that end in suffixes of one length agree on both parts. *)
Lemma str_app_inj_suffix (s1 s2 t1 t2 : string) :
  String.length t1 = String.length t2 ->
  s1 +:+ t1 = s2 +:+ t2 -> s1 = s2 /\ t1 = t2.
Proof.
  revert s2. induction s1 as [|a s1 IH]; intros [|b s2] Hlen Heq.
  - split; [reflexivity|exact Heq].
  - rewrite str_app_nil_l in Heq. apply (f_equal String.length) in Heq.
    rewrite str_length_app in Heq. simpl in Heq. lia.
  - rewrite str_app_nil_l in Heq. apply (f_equal String.length) in Heq.
    rewrite str_length_app in Heq. simpl in Heq. lia.
  - rewrite !str_app_cons in Heq. injection Heq as -> Heq.
    destruct (IH s2 Hlen Heq) as [-> ->]. split; reflexivity.
Qed.

Lemma prefix_app (p s : string) :
  String.prefix p s = true <-> exists t, s = p +:+ t.
Proof.
  revert s. induction p as [|a p IH]; intros s.
  - split; [intros _; exists s; reflexivity|intros _; destruct s; reflexivity].
  - destruct s as [|b s]; simpl.
    + split; [discriminate|intros [t Ht]; discriminate].
    + destruct (Ascii.ascii_dec a b) as [->|Hne].
      * rewrite IH. split; intros [t Ht]; exists t.
        -- rewrite str_app_cons, Ht. reflexivity.
        -- rewrite str_app_cons in Ht. congruence.
      * split; [discriminate|]. intros [t Ht]. rewrite str_app_cons in Ht. congruence.
Qed.

(** [needle in hay] holds exactly when [hay] is some text, [needle], and some
    text. *)
Lemma str_contains_spec (needle hay : string) :
  str_contains needle hay = true <->
  exists before after, hay = before +:+ needle +:+ after.
Proof.
  induction hay as [|a hay IH].
  - change (str_contains needle "") with (String.prefix needle "" || false).
    rewrite orb_false_r, prefix_app. split.
    + intros [t Ht]. exists "", t. exact Ht.
    + intros [[|b before] [after H]]; [exists after; exact H|discriminate].
  - change (str_contains needle (String a hay))
      with (String.prefix needle (String a hay) || str_contains needle hay).
    rewrite orb_true_iff, IH, prefix_app. split.
    + intros [[t Ht]|[before [after H]]].
      * exists "", t. exact Ht.
      * exists (String a before), after. rewrite str_app_cons, H. reflexivity.
    + intros [[|b before] [after H]].
      * left. exists after. exact H.
      * right. rewrite str_app_cons in H. injection H as -> H.
        exists before, after. exact H.
Qed.

Lemma str_concat_app (l1 l2 : list string) :
  str_concat (l1 ++ l2) = str_concat l1 +:+ str_concat l2.
Proof.
  induction l1 as [|s l1 IH]; [reflexivity|].
  simpl. rewrite IH, str_app_assoc. reflexivity.
Qed.

(** ** Dictionaries *)

Lemma dict_get_set_eq {V} (k : string) (v : V) (d : dict V) :
  dict_get k (dict_set k v d) = Some v.
Proof.
  induction d as [|[k' v'] d IH]; simpl.
  - rewrite String.eqb_refl. reflexivity.
  - destruct (String.eqb k k') eqn:E; simpl.
    + rewrite String.eqb_refl. reflexivity.
    + rewrite E. exact IH.
Qed.

Lemma dict_get_set_ne {V} (k k0 : string) (v : V) (d : dict V) :
  k0 <> k -> dict_get k0 (dict_set k v d) = dict_get k0 d.
Proof.
  intros Hne. induction d as [|[k' v'] d IH]; simpl.
  - apply String.eqb_neq in Hne. rewrite Hne. reflexivity.
  - destruct (String.eqb k k') eqn:E; simpl.
    + apply String.eqb_eq in E. subst k'.
      apply String.eqb_neq in Hne. rewrite Hne. reflexivity.
    + rewrite IH. reflexivity.
Qed.

Lemma existsb_eqb_keys {V} (k : string) (d : dict V) :
  existsb (String.eqb k) (dict_keys d) = false <-> dict_get k d = None.
Proof.
  induction d as [|[k' v'] d IH]; simpl; [tauto|].
  destruct (String.eqb k k'); simpl; [split; discriminate|exact IH].
Qed.

Lemma dict_keys_set_fresh {V} (k : string) (v : V) (d : dict V) :
  dict_get k d = None -> dict_set k v d = d ++ [(k, v)].
Proof.
  induction d as [|[k' v'] d IH]; simpl; [reflexivity|].
  destruct (String.eqb k k'); [discriminate|]. intros H. rewrite IH by exact H. reflexivity.
Qed.

Lemma dict_wf_set {V} (k : string) (v : V) (d : dict V) :
  dict_wf d = true -> dict_wf (dict_set k v d) = true.
Proof.
  induction d as [|[k' v'] d IH]; simpl; [reflexivity|].
  rewrite andb_true_iff, negb_true_iff. intros [Hk Hd].
  destruct (String.eqb k k') eqn:E; simpl.
  - apply String.eqb_eq in E. subst k'. rewrite Hk, Hd. reflexivity.
  - rewrite (IH Hd), andb_true_r, negb_true_iff.
    apply existsb_eqb_keys. rewrite dict_get_set_ne.
    + apply existsb_eqb_keys. exact Hk.
    + intros ->. rewrite String.eqb_refl in E. discriminate.
Qed.

Lemma dict_wf_of_records {V} (recs : list (string * V)) :
  dict_wf (dict_of_records recs) = true.
Proof.
  unfold dict_of_records.
  assert (H : forall d : dict V, dict_wf d = true ->
            dict_wf (fold_left (fun d r => dict_set (fst r) (snd r) d) recs d) = true).
  { induction recs as [|r recs IH]; intros d Hd; simpl; [exact Hd|].
    apply IH, dict_wf_set, Hd. }
  apply H. reflexivity.
Qed.

(** In a well-formed dictionary every entry is what its key looks up. *)
Lemma dict_get_In {V} (d : dict V) (k : string) (v : V) :
  dict_wf d = true -> In (k, v) d -> dict_get k d = Some v.
Proof.
  induction d as [|[k' v'] d IH]; simpl; [tauto|].
  rewrite andb_true_iff, negb_true_iff. intros [Hk Hd] [Heq|Hin].
  - injection Heq as -> ->. rewrite String.eqb_refl. reflexivity.
  - destruct (String.eqb k k') eqn:E.
    + apply String.eqb_eq in E. subst k'.
      apply existsb_eqb_keys in Hk. rewrite (IH Hd Hin) in Hk. discriminate.
    + apply IH; assumption.
Qed.

(** Results recorded under names that differ stand in the order of their
    recording. *)
Lemma dict_of_records_distinct {V} (recs : list (string * V)) :
  dict_wf recs = true -> dict_of_records recs = recs.
Proof.
  unfold dict_of_records.
  assert (H : forall d : dict V, dict_wf (d ++ recs) = true ->
            fold_left (fun d r => dict_set (fst r) (snd r) d) recs d = d ++ recs).
  { induction recs as [|[k v] recs IH]; intros d Hd; simpl.
    - rewrite app_nil_r. reflexivity.
    - assert (Hfresh : dict_get k d = None).
      { clear IH. induction d as [|[k' v'] d IHd]; simpl in *; [reflexivity|].
        apply andb_true_iff in Hd as [Hk Hd]. apply negb_true_iff in Hk.
        destruct (String.eqb k k') eqn:E.
        - apply String.eqb_eq in E. subst k'.
          apply existsb_eqb_keys in Hk.
          rewrite (dict_get_In (d ++ (k, v) :: recs) k v Hd) in Hk; [discriminate|].
          apply in_or_app. right. left. reflexivity.
        - apply IHd, Hd. }
      rewrite (dict_keys_set_fresh k v d Hfresh).
      rewrite IH; rewrite <- app_assoc; [reflexivity|exact Hd]. }
  intros Hwf. apply (H [] Hwf).
Qed.

(** ** Floating point *)

Lemma SFltb_cotrans (x y c : spec_float) :
  SFltb c x = false -> SFltb c y = true -> SFltb y x = false.
Proof.
  unfold SFltb, SFcompare.
  destruct x as [sx|sx| |sx mx ex], y as [sy|sy| |sy my ey], c as [sc|sc| |sc mc ec];
    try destruct sx; try destruct sy; try destruct sc; simpl;
    try congruence;
    fold (Pos.compare mc mx); fold (Pos.compare mc my); fold (Pos.compare my mx);
    destruct (Z.compare_spec ec ex), (Z.compare_spec ec ey), (Z.compare_spec ey ex);
    destruct (Pos.compare_spec mc mx), (Pos.compare_spec mc my), (Pos.compare_spec my mx);
    simpl; try congruence; try lia.
Qed.

Lemma SFltb_irrefl (x : spec_float) : SFltb x x = false.
Proof.
  unfold SFltb, SFcompare.
  destruct x as [s|s| |s m e]; try destruct s; simpl; try reflexivity;
    fold (Pos.compare m m); rewrite Z.compare_refl, Pos.compare_refl; reflexivity.
Qed.

Lemma SFleb_of_not_ltb (x m : spec_float) :
  SFeqb x x = true -> SFeqb m m = true -> SFltb m x = false -> SFleb x m = true.
Proof.
  unfold SFeqb, SFltb, SFleb, SFcompare.
  destruct x as [sx|sx| |sx mx ex], m as [sm|sm| |sm mm em];
    try destruct sx; try destruct sm; simpl; try congruence; intros _ _;
    fold (Pos.compare mm mx); fold (Pos.compare mx mm);
    rewrite (Z.compare_antisym em ex), (Pos.compare_antisym mm mx);
    destruct (Z.compare em ex), (Pos.compare mm mx); simpl; congruence.
Qed.

(** [x > y] is irreflexive, and an item that is not above the candidate is
    not above an item that replaces the candidate; both hold of every float,
    a NaN included. *)
Lemma float_gt_irrefl (x : float) : float_gt x x = false.
Proof. unfold float_gt. rewrite ltb_spec. apply SFltb_irrefl. Qed.

Lemma float_gt_cotrans (x item m : float) :
  float_gt x m = false -> float_gt item m = true -> float_gt x item = false.
Proof. unfold float_gt. rewrite !ltb_spec. apply SFltb_cotrans. Qed.

(** Without a NaN, not above means below or equal. *)
Lemma float_le_of_not_gt (x m : float) :
  PrimFloat.is_nan x = false -> PrimFloat.is_nan m = false ->
  float_gt x m = false -> PrimFloat.leb x m = true.
Proof.
  unfold float_gt, PrimFloat.is_nan.
  rewrite !negb_false_iff, !FloatAxioms.eqb_spec, ltb_spec, leb_spec. apply SFleb_of_not_ltb.
Qed.

Lemma py_max_fold (rest seen : list float) (m : float) :
  In m seen /\ (forall x, In x seen -> float_gt x m = false) ->
  let m' := fold_left (fun m item => if float_gt item m then item else m) rest m in
  In m' (seen ++ rest) /\ (forall x, In x (seen ++ rest) -> float_gt x m' = false).
Proof.
  revert seen m. induction rest as [|item rest IH]; intros seen m [Hin Hmax]; simpl.
  - rewrite app_nil_r. split; assumption.
  - replace (seen ++ item :: rest) with ((seen ++ [item]) ++ rest)
      by (rewrite <- app_assoc; reflexivity).
    apply IH. destruct (float_gt item m) eqn:E; split.
    + apply in_or_app. right. left. reflexivity.
    + intros x [Hx|[<-|[]]]%in_app_or.
      * apply (float_gt_cotrans x item m); [apply Hmax, Hx|exact E].
      * apply float_gt_irrefl.
    + apply in_or_app. left. exact Hin.
    + intros x [Hx|[<-|[]]]%in_app_or; [apply Hmax, Hx|exact E].
Qed.

(** The builtin [max] returns a maximum. *)
Lemma py_max_spec (l : list float) (m : float) :
  py_max l = Some m -> is_maximum m l.
Proof.
  destruct l as [|x rest]; simpl; [discriminate|]. intros [= <-].
  destruct (py_max_fold rest [x] x) as [Hin Hmax].
  { split; [left; reflexivity|]. intros y [<-|[]]. apply float_gt_irrefl. }
  split; [exact Hin|]. split; [exact Hmax|].
  intros y Hy Hny Hnm. apply float_le_of_not_gt; [exact Hny|exact Hnm|apply Hmax, Hy].
Qed.

Lemma py_max_nonempty (l : list float) : l <> [] -> exists m, py_max l = Some m.
Proof. destruct l; [congruence|]. intros _. eexists. reflexivity. Qed.

(** ** Running the monad *)

Lemma bind_run {A B} (m : M A) (k : A -> M B) (st st' : State) (a : A) :
  m st = (Ret a, st') -> bind m k st = k a st'.
Proof. unfold bind. intros ->. reflexivity. Qed.

Lemma bind_raise {A B} (m : M A) (k : A -> M B) (st st' : State) (e : exn) :
  m st = (Raise e, st') -> bind m k st = (Raise e, st').
Proof. unfold bind. intros ->. reflexivity. Qed.

Lemma bind_assoc {A B C} (m : M A) (f : A -> M B) (g : B -> M C) (st : State) :
  bind (bind m f) g st = bind m (fun x => bind (f x) g) st.
Proof. unfold bind. destruct (m st) as [[a|e] st']; reflexivity. Qed.

Lemma file_print_run (message : string) (st : State) :
  fo_closed (file (self st)) = false ->
  _file_print message st = (Ret tt, emit message st).
Proof.
  intros Hopen. unfold _file_print, file_write, bind, get_self. simpl.
  rewrite Hopen. reflexivity.
Qed.

Lemma file_print_closed (message : string) (st : State) :
  fo_closed (file (self st)) = true ->
  _file_print message st =
  (Raise (Exception "ValueError" "I/O operation on closed file."), st).
Proof.
  intros Hclosed. unfold _file_print, file_write, bind, get_self. simpl.
  rewrite Hclosed. reflexivity.
Qed.

Lemma file_content_emit (message : string) (st : State) :
  file_content (emit message st) = file_content st +:+ message.
Proof. unfold file_content, emit. simpl. rewrite lookup_insert_eq. reflexivity. Qed.

Lemma emit_emit (a b : string) (st : State) :
  emit b (emit a st) = emit (a +:+ b) st.
Proof.
  unfold emit at 1. rewrite file_content_emit. unfold emit. simpl.
  rewrite insert_insert_eq, !str_app_assoc. reflexivity.
Qed.

Lemma for_each_file_print (lines : list string) (a : string) (st : State) :
  fo_closed (file (self st)) = false ->
  for_each lines _file_print (emit a st) = (Ret tt, emit (a +:+ str_concat lines) st).
Proof.
  intros Hopen. revert a. induction lines as [|line lines IH]; intros a; simpl.
  - rewrite str_app_nil_r. reflexivity.
  - rewrite (bind_run _ _ _ _ _ (file_print_run line (emit a st) Hopen)).
    rewrite emit_emit, IH, str_app_assoc. reflexivity.
Qed.

Lemma thermal_loop_run (env : Env) (d : dict float) (a : string) (st : State) :
  fo_closed (file (self st)) = false ->
  (forall r, In r d -> dict_get (fst r) (thermals (self st)) = Some (snd r)) ->
  for_each (dict_keys d)
    (fun test =>
       s <- get_self ;;
       t <- dict_getitem test (thermals s) ;;
       _file_print (test +:+ ": " +:+ str_of_float env t +:+ LF)) (emit a st)
  = (Ret tt, emit (a +:+ str_concat (map (thermal_line env) d)) st).
Proof.
  intros Hopen. revert a. induction d as [|[k v] d IH]; intros a Hget; simpl.
  - rewrite str_app_nil_r. reflexivity.
  - unfold bind at 1. unfold bind at 1. unfold get_self at 1. simpl self.
    unfold bind at 1. unfold dict_getitem at 1.
    pose proof (Hget (k, v) (or_introl eq_refl)) as Hk. simpl in Hk.
    rewrite Hk. unfold ret at 1.
    rewrite (file_print_run _ (emit a st) Hopen), emit_emit.
    rewrite IH by (intros r Hr; apply Hget; right; exact Hr).
    unfold thermal_line at 2. simpl fst. simpl snd. rewrite str_app_assoc. reflexivity.
Qed.

Lemma write_thermal_summary_run (env : Env) (st : State) :
  fo_closed (file (self st)) = false ->
  dict_wf (thermals (self st)) = true ->
  when (dict_nonempty (thermals (self st))) (_write_thermal_summary env) st
  = (Ret tt, if dict_nonempty (thermals (self st))
             then emit (thermal_block env (thermals (self st))) st else st).
Proof.
  intros Hopen Hwf. unfold thermal_block.
  destruct (dict_nonempty (thermals (self st))) eqn:Hne; [|reflexivity].
  unfold when, _write_thermal_summary.
  rewrite (bind_run _ _ _ _ _ (file_print_run _ st Hopen)).
  rewrite (bind_run _ _ _ _ _ (file_print_run _ (emit _ st) Hopen)), emit_emit.
  rewrite (bind_run _ _ _ _ _ (file_print_run _ (emit _ st) Hopen)), emit_emit.
  unfold bind at 1. unfold get_self at 1. simpl self.
  rewrite (bind_run _ _ _ _ _ (thermal_loop_run env _ _ st Hopen
             (fun r Hr => dict_get_In _ (fst r) (snd r) Hwf
                            (eq_ind _ (fun x => In x _) Hr _ (surjective_pairing r))))).
  rewrite (file_print_run _ (emit _ st) Hopen), emit_emit.
  rewrite !str_app_assoc. reflexivity.
Qed.

Lemma results_loop_run (d : dict bool) (acc : string * bool) (st : State) :
  (forall r, In r d -> dict_get (fst r) (results (self st)) = Some (snd r)) ->
  for_fold (dict_keys d) acc
    (fun test acc =>
       s <- get_self ;;
       r <- dict_getitem test (results s) ;;
       ret (fst acc +:+ (test +:+ ": " +:+ passed_or_failed r +:+ LF), snd acc && r)) st
  = (Ret (fst acc +:+ result_lines d, snd acc && forallb snd d), st).
Proof.
  revert acc. induction d as [|[k v] d IH]; intros [summary overall] Hget; simpl.
  - unfold result_lines. simpl. rewrite str_app_nil_r, andb_true_r. reflexivity.
  - unfold bind at 1. unfold bind at 1. unfold get_self at 1.
    unfold bind at 1. unfold dict_getitem at 1.
    pose proof (Hget (k, v) (or_introl eq_refl)) as Hk. simpl in Hk.
    rewrite Hk. unfold ret at 1. unfold ret at 1.
    rewrite IH by (intros r Hr; apply Hget; right; exact Hr).
    simpl fst. simpl snd. unfold result_lines. simpl map. simpl str_concat.
    unfold result_line at 2. simpl fst. simpl snd.
    rewrite !str_app_assoc, andb_assoc. reflexivity.
Qed.

Lemma suite_ok_inv (st : State) :
  suite_ok st = true ->
  fo_closed (file (self st)) = false /\
  fo_name (file (self st)) = file_path (self st) /\
  (exists c, fs (world st) !! file_path (self st) = Some c) /\
  dict_wf (results (self st)) = true /\
  dict_wf (thermals (self st)) = true.
Proof.
  unfold suite_ok. rewrite !andb_true_iff, negb_true_iff, String.eqb_eq.
  intros [[[[H1 H2] H3] H4] H5]. apply bool_decide_eq_true in H3.
  destruct H3 as [c Hc]. split; [exact H1|]. split; [exact H2|].
  split; [exists c; exact Hc|]. split; assumption.
Qed.

Lemma bind_ret {A B} (a : A) (k : A -> M B) (st : State) :
  bind (ret a) k st = k a st.
Proof. reflexivity. Qed.

Lemma bind_get_self {B} (k : TestSuite -> M B) (st : State) :
  bind get_self k st = k (self st) st.
Proof. reflexivity. Qed.

Lemma bind_get_world {B} (k : World -> M B) (st : State) :
  bind get_world k st = k (world st) st.
Proof. reflexivity. Qed.

Lemma bind_update_self {B} (f : TestSuite -> TestSuite) (k : unit -> M B) (st : State) :
  bind (update_self f) k st = k tt (mkState (f (self st)) (world st)).
Proof. reflexivity. Qed.

Lemma bind_update_world {B} (f : World -> World) (k : unit -> M B) (st : State) :
  bind (update_world f) k st = k tt (mkState (self st) (f (world st))).
Proof. reflexivity. Qed.

Lemma tmp_neq (path : string) : path +:+ ".tmp" <> path.
Proof. apply str_app_neq_self. discriminate. Qed.

Lemma max_line_run (env : Env) (th : dict float) (base : string) (st : State) :
  (if dict_nonempty th
   then match py_max (dict_values th) with
        | Some max_temp =>
            ret (base +:+ LF +:+ "Max Temperature (C): " +:+ str_of_float env max_temp)
        | None => raise (Exception "ValueError" "max() arg is an empty sequence")
        end
   else ret base) st
  = (Ret (base +:+ max_temperature_line env th), st).
Proof.
  unfold max_temperature_line. destruct th as [|[k v] th].
  - simpl. rewrite str_app_nil_r. reflexivity.
  - reflexivity.
Qed.

(** [_write_summary] on a suite in working order never raises, and leaves
    the state [finalized]. *)
Lemma write_summary_run (env : Env) (st : State) :
  suite_ok st = true ->
  _write_summary env st = (Ret tt, finalized env st).
Proof.
  intros (Hopen & Hname & [c Hc] & Hres & Hth)%suite_ok_inv.
  unfold _write_summary.
  unfold bind at 1. unfold get_self at 1.
  rewrite (bind_run _ _ _ _ _ (write_thermal_summary_run env st Hopen Hth)).
  set (pre := file_content st +:+ thermal_block env (thermals (self st))).
  set (st1 := if dict_nonempty (thermals (self st)) then _ else st).
  assert (Hself : self st1 = self st) by (subst st1; destruct (dict_nonempty _); reflexivity).
  assert (Hsp : spawned (world st1) = spawned (world st))
    by (subst st1; destruct (dict_nonempty _); reflexivity).
  assert (Hout : stdout (world st1)
                 = stdout (world st) +:+ thermal_block env (thermals (self st))).
  { subst st1. unfold thermal_block. destruct (dict_nonempty _); simpl; [reflexivity|].
    rewrite str_app_nil_r. reflexivity. }
  assert (Hpre : fs (world st1) !! file_path (self st) = Some pre).
  { assert (Hfc : file_content st = c)
      by (unfold file_content; rewrite Hname, Hc; reflexivity).
    subst st1 pre. unfold thermal_block.
    destruct (dict_nonempty _); cbn [emit world fs self].
    - rewrite Hname, lookup_insert_eq. reflexivity.
    - rewrite Hc, Hfc, str_app_nil_r. reflexivity. }
  assert (Hfs : forall x, <[file_path (self st) := x]>
                            (delete (file_path (self st) +:+ ".tmp") (fs (world st1)))
                          = <[file_path (self st) := x]>
                            (delete (file_path (self st) +:+ ".tmp") (fs (world st)))).
  { intros x. subst st1. destruct (dict_nonempty _); [|reflexivity]. simpl.
    rewrite Hname, delete_insert_ne by apply tmp_neq.
    rewrite insert_insert_eq. reflexivity. }
  clearbody st1.
  unfold file_close. rewrite bind_update_self, bind_get_self. cbn [self world].
  unfold open_read. rewrite bind_assoc, bind_get_world. cbn [self world file_path set_file].
  destruct st1 as [s1 w1]. cbn [self world] in *. subst s1.
  rewrite Hpre, bind_ret.
  unfold open_write. rewrite bind_update_world. cbn [self world results].
  erewrite bind_run
    by (apply results_loop_run; intros [k v] Hr; apply dict_get_In; assumption).
  rewrite bind_get_self. cbn [self world thermals results file_path set_file fst snd andb].
  rewrite (bind_run _ _ _ _ _ (max_line_run env _ _ _)).
  unfold print, stdout_write, path_write. rewrite !bind_update_world.
  unfold path_read. rewrite bind_assoc, bind_get_world.
  cbn [self world fs stdout spawned set_fs set_stdout].
  rewrite !lookup_insert_eq.
  rewrite !(lookup_insert_ne _ _ (file_path (self st))) by apply tmp_neq.
  rewrite Hpre, bind_ret, bind_update_world.
  unfold os_rename. rewrite bind_get_world.
  cbn [self world fs stdout spawned set_fs set_stdout].
  rewrite !lookup_insert_eq.
  unfold update_world, finalized, summary_text, overall_line.
  cbn [self world fs stdout spawned set_fs set_stdout default from_option id].
  unfold set_fs, set_stdout. cbn [fs stdout spawned].
  rewrite !delete_insert_eq, Hfs, Hout, Hsp, str_app_nil_l, !str_app_assoc.
  reflexivity.
Qed.

(** ** The thermal sampler *)

Lemma append_temperatures_prefix (env : Env) (lines : list string) (acc : list float) :
  fst (append_temperatures env lines acc)
  = acc ++ map (fun x => (x / 1000)%float) (parsed_prefix env lines).
Proof.
  revert acc. induction lines as [|line lines IH]; intros acc; simpl.
  - rewrite app_nil_r. reflexivity.
  - destruct (float_of_str env line) as [x|]; simpl.
    + rewrite IH, <- app_assoc. reflexivity.
    + rewrite app_nil_r. reflexivity.
Qed.

Lemma py_max_None (l : list float) : py_max l = None -> l = [].
Proof. destruct l; [reflexivity|discriminate]. Qed.

Lemma read_temperatures_run (env : Env) (current_test : string) (st : State) :
  _read_temperatures env current_test st = (Ret tt, sampled env current_test st).
Proof.
  unfold _read_temperatures. fold cat_command.
  erewrite bind_run with (a := readings env) (st' := spawn cat_command st).
  - unfold sampled. destruct (readings env) as [|t ts]; reflexivity.
  - unfold try_except, Popen, readings.
    rewrite bind_assoc, bind_update_world.
    destruct (popen env cat_command) as [e|lines rc|lines e rc]; [reflexivity| |];
      rewrite !bind_ret; unfold ret; cbn [fst output_lines proc_stdout];
      rewrite append_temperatures_prefix; reflexivity.
Qed.

(** ** Running a test *)

Lemma spawn_emit (c : command) (message : string) (st : State) :
  spawn c (emit message st) = emit message (spawn c st).
Proof. reflexivity. Qed.

Lemma popen_run (env : Env) (c : command) (st : State) :
  Popen env c st
  = match popen env c with
    | LaunchError e => (Raise e, spawn c st)
    | Running lines returncode => (Ret (mkProcess lines None returncode), spawn c st)
    | ReadError lines e returncode =>
        (Ret (mkProcess lines (Some e) returncode), spawn c st)
    end.
Proof.
  unfold Popen. rewrite bind_update_world.
  destruct (popen env c); reflexivity.
Qed.

Lemma for_lines_run (proc : process) (body : string -> M unit) (st st' : State) :
  for_each (proc_stdout proc) body st = (Ret tt, st') ->
  for_lines proc body st
  = (match proc_broken proc with Some e => Raise e | None => Ret tt end, st').
Proof.
  intros Hloop. unfold for_lines. rewrite (bind_run _ _ _ _ _ Hloop).
  destruct (proc_broken proc); reflexivity.
Qed.

Lemma run_test_run (env : Env) (current_test : string) (args : list string)
    (st : State) :
  fo_closed (file (self st)) = false ->
  run_test env (current_test :: args) st
  = (Ret tt, tested env current_test args st).
Proof.
  intros Hopen. unfold run_test, tested, test_heading.
  rewrite (bind_run _ _ _ _ _ (file_print_run _ st Hopen)).
  rewrite (bind_run _ _ _ _ _ (file_print_run _ (emit _ st) Hopen)), emit_emit.
  rewrite (bind_run _ _ _ _ _ (file_print_run _ (emit _ st) Hopen)), emit_emit.
  fold (test_command env current_test args).
  set (c := test_command env current_test args).
  unfold bind at 1. unfold try_except at 1.
  unfold bind at 1. rewrite popen_run, spawn_emit.
  destruct (popen env c) as [e|lines rc|lines e rc]; cbv beta iota zeta.
  - rewrite (bind_run _ _ _ _ _ (file_print_run _ (emit _ (spawn c st)) Hopen)), emit_emit.
    rewrite bind_update_self. unfold ret. cbv beta iota zeta.
    rewrite !str_app_assoc. reflexivity.
  - unfold bind at 1.
    rewrite (for_lines_run (mkProcess lines None rc) _ _ _
               (for_each_file_print lines _ (spawn c st) Hopen)).
    cbn [proc_broken proc_stdout proc_returncode].
    unfold ret at 1. cbv beta iota zeta.
    rewrite bind_get_self. cbn [self emit spawn snd proc_returncode].
    rewrite !str_app_assoc.
    destruct (pci (self st) && String.eqb (sys_platform env) "linux"); unfold when.
    + rewrite (bind_run _ _ _ _ _ (read_temperatures_run env current_test _)).
      destruct (Z.eqb rc 0); reflexivity.
    + rewrite bind_ret. destruct (Z.eqb rc 0); reflexivity.
  - unfold bind at 1.
    rewrite (for_lines_run (mkProcess lines (Some e) rc) _ _ _
               (for_each_file_print lines _ (spawn c st) Hopen)).
    cbn [proc_broken proc_stdout proc_returncode]. cbv beta iota zeta.
    erewrite bind_run by (apply file_print_run; exact Hopen).
    rewrite emit_emit, bind_update_self. unfold ret. cbv beta iota zeta.
    rewrite !str_app_assoc. reflexivity.
Qed.

(** ** The hardware detector *)

Lemma emit_emit_self (a b : string) (s s1 : TestSuite) (w : World) :
  file s1 = file s ->
  emit b (mkState s1 (world (emit a (mkState s w))))
  = emit (a +:+ b) (mkState s1 w).
Proof.
  intros Hfile. unfold emit, file_content. cbn [self world fs stdout spawned].
  rewrite Hfile, lookup_insert_eq, insert_insert_eq. cbn [from_option id].
  rewrite !str_app_assoc. reflexivity.
Qed.

Lemma bind_when_update_self {B} (c : bool) (f : TestSuite -> TestSuite)
    (k : unit -> M B) (st : State) :
  bind (when c (update_self f)) k st
  = k tt (mkState (if c then f (self st) else self st) (world st)).
Proof. destruct c, st; reflexivity. Qed.

Lemma counted_cons (line : string) (lines : list string) (s : TestSuite) :
  counted lines
    (set_tpus (tpus s + 1)
       (set_usb (usb s || str_contains "USB" line)
          (set_pci (pci s || str_contains "PCI" line) s)))
  = counted (line :: lines) s.
Proof.
  unfold counted, set_tpus, set_usb, set_pci. cbn [tpus pci usb results file_path file thermals existsb length].
  f_equal; [lia|rewrite orb_assoc; reflexivity|rewrite orb_assoc; reflexivity].
Qed.

Lemma detect_loop_run (lines : list string) (a : string) (s : TestSuite) (w : World) :
  fo_closed (file s) = false ->
  for_each lines
    (fun line =>
       s <- get_self ;;
       when (negb (pci s) && str_contains "PCI" line) (update_self (set_pci true)) ;;
       s <- get_self ;;
       when (negb (usb s) && str_contains "USB" line) (update_self (set_usb true)) ;;
       update_self (fun s => set_tpus (tpus s + 1) s) ;;
       _file_print line)
    (emit a (mkState s w))
  = (Ret tt, emit (a +:+ str_concat lines) (mkState (counted lines s) w)).
Proof.
  revert a s. induction lines as [|line lines IH]; intros a s Hopen.
  - simpl. rewrite str_app_nil_r. unfold counted. cbn [length existsb].
    rewrite Nat.add_0_r, !orb_false_r. destruct s; reflexivity.
  - cbn [for_each str_concat].
    assert (Hstep :
      (s0 <- get_self ;;
       when (negb (pci s0) && str_contains "PCI" line) (update_self (set_pci true)) ;;
       s1 <- get_self ;;
       when (negb (usb s1) && str_contains "USB" line) (update_self (set_usb true)) ;;
       update_self (fun s => set_tpus (tpus s + 1) s) ;;
       _file_print line) (emit a (mkState s w))
      = (Ret tt,
         emit (a +:+ line)
           (mkState (set_tpus (tpus s + 1)
                       (set_usb (usb s || str_contains "USB" line)
                          (set_pci (pci s || str_contains "PCI" line) s))) w))).
    { rewrite bind_get_self, bind_when_update_self, bind_get_self,
        bind_when_update_self, bind_update_self.
      cbn [self world].
      change (self (emit a {| self := s; world := w |})) with s.
      rewrite file_print_run by (cbn [self]; destruct s as [r fp f t p u th]; destruct p, u, (str_contains "PCI" line),
                                   (str_contains "USB" line); exact Hopen).
      rewrite emit_emit_self
        by (destruct s as [r fp f t p u th]; destruct p, u, (str_contains "PCI" line), (str_contains "USB" line);
            reflexivity).
      do 3 f_equal.
      destruct s as [r fp f t p u th]; destruct p, u, (str_contains "PCI" line), (str_contains "USB" line);
        reflexivity. }
    rewrite (bind_run _ _ _ _ _ Hstep).
    rewrite IH by exact Hopen. rewrite counted_cons, str_app_assoc. reflexivity.
Qed.

Lemma counted_nil (s : TestSuite) : counted [] s = s.
Proof.
  unfold counted. cbn [length existsb].
  rewrite Nat.add_0_r, !orb_false_r. destruct s; reflexivity.
Qed.

Lemma detect_verdict_run (a : string) (s : TestSuite) (w : World) :
  fo_closed (file s) = false ->
  (s0 <- get_self ;;
   (if negb (Nat.eqb (tpus s0) 0)
    then update_self (fun s => set_results (dict_set "lstpu" true (results s)) s)
    else update_self (fun s => set_results (dict_set "lstpu" false (results s)) s) ;;
         _file_print ("No TPUs detected" +:+ LF)) ;;
   s1 <- get_self ;;
   ret (tpus s1)) (emit a (mkState s w))
  = (Ret (tpus s),
     record "lstpu" (negb (Nat.eqb (tpus s) 0))
       (emit (a +:+ (if negb (Nat.eqb (tpus s) 0) then "" else "No TPUs detected" +:+ LF))
             (mkState s w))).
Proof.
  intros Hopen. rewrite bind_get_self. cbn [self emit].
  destruct (Nat.eqb (tpus s) 0); cbn [negb].
  - rewrite bind_assoc, bind_update_self.
    erewrite bind_run by (apply file_print_run; exact Hopen).
    rewrite bind_get_self. unfold ret, record.
    cbn [self world emit tpus set_results].
    unfold emit, file_content. cbn [self world file set_results fs stdout spawned].
    rewrite lookup_insert_eq, insert_insert_eq. cbn [from_option id].
    rewrite !str_app_assoc. reflexivity.
  - rewrite bind_update_self, bind_get_self. unfold ret, record.
    cbn [self world emit tpus set_results].
    rewrite !str_app_nil_r. reflexivity.
Qed.

Lemma detect_tpus_run (env : Env) (st : State) :
  fo_closed (file (self st)) = false ->
  detect_tpus env st = (Ret (tpus (self (detected env st))), detected env st).
Proof.
  intros Hopen. unfold detect_tpus, detected, lstpu_heading.
  rewrite (bind_run _ _ _ _ _ (file_print_run _ st Hopen)).
  rewrite (bind_run _ _ _ _ _ (file_print_run _ (emit _ st) Hopen)), emit_emit.
  rewrite (bind_run _ _ _ _ _ (file_print_run _ (emit _ st) Hopen)), emit_emit.
  fold (lstpu_command env). set (c := lstpu_command env).
  cbv zeta.
  set (lines := output_lines (popen env c)).
  set (failure := match popen env c with
                  | LaunchError e => str_exn e +:+ LF
                  | Running _ _ => ""
                  | ReadError _ e _ => str_exn e +:+ LF
                  end).
  set (heading := LF +:+ SECTION_HEADER +:+ ("Detected TPUs (lstpu)" +:+ LF) +:+ SECTION_HEADER).
  assert (Hopen' : fo_closed (file (counted lines (self st))) = false) by exact Hopen.
  erewrite bind_run with
    (a := tt)
    (st' := emit (heading +:+ str_concat lines +:+ failure)
              (mkState (counted lines (self st)) (world (spawn c st)))).
  - rewrite (detect_verdict_run _ _ _ Hopen').
    unfold heading. rewrite !str_app_assoc. reflexivity.
  - unfold try_except. unfold bind at 1. rewrite popen_run, spawn_emit.
    change (spawn c st) with (mkState (self st) (world (spawn c st))).
    set (w := world (spawn c st)).
    subst lines failure.
    destruct (popen env c) as [e|lines rc|lines e rc]; cbv beta iota zeta;
      cbn [output_lines].
    + rewrite counted_nil.
      rewrite (file_print_run _ (emit _ (mkState (self st) w)) Hopen), emit_emit.
      cbn [str_concat]. rewrite !str_app_assoc, ?str_app_nil_l. reflexivity.
    + erewrite (for_lines_run (mkProcess lines None rc))
        by (apply detect_loop_run; exact Hopen).
      cbn [proc_broken]. rewrite !str_app_nil_r. reflexivity.
    + erewrite (for_lines_run (mkProcess lines (Some e) rc))
        by (apply detect_loop_run; exact Hopen).
      cbn [proc_broken].
      rewrite (file_print_run _ (emit _ (mkState (counted lines (self st)) w)) Hopen'),
        emit_emit.
      rewrite !str_app_assoc. reflexivity.
Qed.

(** ** The driver *)

Lemma print_system_info_plain (env : Env) (st : State) :
  fo_closed (file (self st)) = false ->
  pci (self st) = false -> usb (self st) = false ->
  print_system_info env st = (Ret tt, emit (system_info_text env) st).
Proof.
  intros Hopen Hpci Husb. unfold print_system_info, system_info_text.
  rewrite (bind_run _ _ _ _ _ (file_print_run _ st Hopen)).
  rewrite (bind_run _ _ _ _ _ (file_print_run _ (emit _ st) Hopen)), emit_emit.
  rewrite (bind_run _ _ _ _ _ (file_print_run _ (emit _ st) Hopen)), emit_emit.
  rewrite (bind_run _ _ _ _ _ (file_print_run _ (emit _ st) Hopen)), emit_emit.
  rewrite !str_app_assoc.
  destruct (String.eqb (sys_platform env) "linux"); [|reflexivity].
  unfold when. rewrite bind_get_self. cbn [self emit]. rewrite Hpci, Husb. reflexivity.
Qed.

Lemma bind_ret_tt (m : M unit) (st : State) : bind m (fun _ => ret tt) st = m st.
Proof. unfold bind, ret. destruct (m st) as [[[]|e] st']; reflexivity. Qed.

(** The tests of [main] are the entry that the table selects. *)
Lemma run_selected_run (env : Env) (tpus : Z) (test_name : string) (st : State) :
  run_selected env tpus test_name st
  = match selected tpus test_name with
    | Some args => run_test env (test_name :: args) st
    | None => (Ret tt, st)
    end.
Proof.
  unfold run_selected, selected, dispatch_table, dict_get.
  repeat match goal with
         | |- context [String.eqb test_name ?s] =>
             destruct (String.eqb_spec test_name s) as [->|?];
             [eval_eqb; rewrite ?andb_false_r; try destruct (1 <? tpus)%Z;
              cbn [when andb negb]; unfold bind, ret; cbv beta iota;
              try destruct (run_test env _ st) as [[[]|e] st']; reflexivity|]
         end.
  rewrite andb_false_r. reflexivity.
Qed.

(** ** The suite stays in working order *)

Lemma suite_ok_intro (st : State) (c : string) :
  fo_closed (file (self st)) = false ->
  fo_name (file (self st)) = file_path (self st) ->
  fs (world st) !! file_path (self st) = Some c ->
  dict_wf (results (self st)) = true ->
  dict_wf (thermals (self st)) = true ->
  suite_ok st = true.
Proof.
  intros H1 H2 H3 H4 H5. unfold suite_ok.
  rewrite H1, H2, String.eqb_refl, H4, H5, bool_decide_eq_true_2; [reflexivity|].
  exists c. exact H3.
Qed.

Lemma suite_ok_init (path : string) (w : World) :
  suite_ok (opened path w) = true.
Proof.
  apply suite_ok_intro with (c := ""); try reflexivity.
  simpl. apply lookup_insert_eq.
Qed.

Lemma suite_ok_emit (message : string) (st : State) :
  suite_ok st = true -> suite_ok (emit message st) = true.
Proof.
  intros (H1 & H2 & [c H3] & H4 & H5)%suite_ok_inv.
  apply suite_ok_intro with (c := file_content st +:+ message); try assumption.
  simpl. rewrite H2. apply lookup_insert_eq.
Qed.

Lemma suite_ok_spawn (c : command) (st : State) :
  suite_ok st = true -> suite_ok (spawn c st) = true.
Proof. intros H. exact H. Qed.

Lemma suite_ok_record (name : string) (b : bool) (st : State) :
  suite_ok st = true -> suite_ok (record name b st) = true.
Proof.
  intros (H1 & H2 & [c H3] & H4 & H5)%suite_ok_inv.
  apply suite_ok_intro with (c := c); try assumption.
  simpl. apply dict_wf_set, H4.
Qed.

Lemma suite_ok_sampled (env : Env) (current_test : string) (st : State) :
  suite_ok st = true -> suite_ok (sampled env current_test st) = true.
Proof.
  intros (H1 & H2 & [c H3] & H4 & H5)%suite_ok_inv. unfold sampled.
  destruct (py_max (readings env)) as [m|].
  - apply suite_ok_intro with (c := c); try assumption.
    simpl. apply dict_wf_set, H5.
  - apply suite_ok_intro with (c := c); assumption.
Qed.

Lemma suite_ok_tested (env : Env) (current_test : string) (args : list string)
    (st : State) :
  suite_ok st = true -> suite_ok (tested env current_test args st) = true.
Proof.
  intros Hok. unfold tested.
  destruct (popen env (test_command env current_test args)) as [e|lines rc|lines e rc].
  - apply suite_ok_record, suite_ok_emit, suite_ok_spawn, Hok.
  - apply suite_ok_record.
    destruct (pci (self st) && String.eqb (sys_platform env) "linux").
    + apply suite_ok_sampled, suite_ok_emit, suite_ok_spawn, Hok.
    + apply suite_ok_emit, suite_ok_spawn, Hok.
  - apply suite_ok_record, suite_ok_emit, suite_ok_spawn, Hok.
Qed.

Lemma suite_ok_main_state (env : Env) (args : Namespace) (w : World) :
  suite_ok (main_state env args w) = true.
Proof.
  unfold main_state. destruct (selected 1 (test_name args)).
  - apply suite_ok_tested, suite_ok_emit, suite_ok_init.
  - apply suite_ok_emit, suite_ok_init.
Qed.

(** The constructor either raises what [open] raises or gives the suite at
    the emptied file. *)
Lemma init_run (env : Env) (path : string) (w : World) :
  open_error env path = None ->
  TestSuite__init__ env path w = Ret (opened path w).
Proof. intros H. unfold TestSuite__init__. rewrite H. reflexivity. Qed.

Lemma init_raises (env : Env) (path : string) (w : World) (e : exn) :
  open_error env path = Some e ->
  TestSuite__init__ env path w = Raise e.
Proof. intros H. unfold TestSuite__init__. rewrite H. reflexivity. Qed.

Lemma init_inv (env : Env) (path : string) (w : World) (st : State) :
  TestSuite__init__ env path w = Ret st ->
  open_error env path = None /\ st = opened path w.
Proof.
  unfold TestSuite__init__. destruct (open_error env path); [discriminate|].
  intros [= <-]. split; reflexivity.
Qed.

(** The files after the fetch, path by path. *)
Lemma lookup_apply_changes (changes : gmap string (option string))
    (files : gmap string string) (path : string) :
  apply_changes changes files !! path
  = match changes !! path with
    | Some (Some content) => Some content
    | Some None => None
    | None => files !! path
    end.
Proof.
  unfold apply_changes. rewrite lookup_merge.
  destruct (changes !! path) as [[content|]|], (files !! path); reflexivity.
Qed.

Lemma spawned_after_fetch (env : Env) (w : World) :
  spawned (after_fetch env w) = spawned w.
Proof. unfold after_fetch. destruct (isdir_test_data env); reflexivity. Qed.

Lemma fs_after_fetch (env : Env) (w : World) :
  fs (after_fetch env w)
  = if isdir_test_data env then fs w else apply_changes (fetch_changes env) (fs w).
Proof. unfold after_fetch. destruct (isdir_test_data env); reflexivity. Qed.

(** [main] from the [with] statement on, the test data being at hand. *)
Lemma main_fetched (env : Env) (args : Namespace) (w : World) :
  fetched env = true ->
  main env args w
  = match TestSuite__init__ env (output_file env args) (after_fetch env w) with
    | Raise e => Aborted e (after_fetch env w)
    | Ret cts =>
        let (r, st) := with_suite env (main_body env args) cts in
        Completed r st
    end.
Proof.
  unfold main, fetched, after_fetch. fold (output_file env args).
  destruct (isdir_test_data env); [reflexivity|].
  destruct (download_error env); [discriminate|].
  destruct (extract_error env); [discriminate|]. reflexivity.
Qed.

(** [main] with the test data at hand and the output file opened: the
    selected test runs, if any, and the summary is written. *)
Lemma main_run (env : Env) (args : Namespace) (w : World) :
  fetched env = true ->
  open_error env (output_file env args) = None ->
  main env args w = Completed (Ret tt) (finalized env (main_state env args w)).
Proof.
  intros Hfetched Hopen.
  rewrite (main_fetched env args w Hfetched), (init_run env _ _ Hopen).
  unfold with_suite, main_body.
  erewrite bind_run by (apply print_system_info_plain; reflexivity).
  rewrite run_selected_run.
  pose proof (suite_ok_main_state env args w) as Hok. unfold main_state in *.
  destruct (selected 1 (test_name args)) as [a|].
  - rewrite run_test_run by reflexivity.
    unfold TestSuite__exit__. rewrite (write_summary_run env _ Hok). reflexivity.
  - unfold TestSuite__exit__. rewrite (write_summary_run env _ Hok). reflexivity.
Qed.

(** [main] when the output file cannot be opened: the exception of [open]
    leaves [main] before there is a suite. *)
Lemma main_unopened (env : Env) (args : Namespace) (w : World) (e : exn) :
  fetched env = true ->
  open_error env (output_file env args) = Some e ->
  main env args w = Aborted e (after_fetch env w).
Proof.
  intros Hfetched Hopen.
  rewrite (main_fetched env args w Hfetched), (init_raises env _ _ _ Hopen).
  reflexivity.
Qed.


(** * The claims of the specification *)

(** ** The summary *)

Lemma file_of_finalized (env : Env) (st : State) :
  fs (world (finalized env st)) !! file_path (self st)
  = Some (summary_text env (results (self st)) (thermals (self st))
          +:+ LF +:+ LF
          +:+ file_content st +:+ thermal_block env (thermals (self st))).
Proof. unfold finalized. simpl. rewrite lookup_insert_eq. reflexivity. Qed.

Lemma forallb_snd_true (rs : dict bool) :
  forallb snd rs = true <-> forall name b, In (name, b) rs -> b = true.
Proof.
  rewrite forallb_forall. split.
  - intros H name b Hin. apply (H (name, b) Hin).
  - intros H [name b] Hin. apply (H name b Hin).
Qed.

Lemma forallb_snd_false (rs : dict bool) :
  forallb snd rs = false <-> exists name, In (name, false) rs.
Proof.
  induction rs as [|[name b] rs IH]; simpl.
  - split; [discriminate|intros [name []]].
  - destruct b; simpl.
    + rewrite IH. split; intros [n Hn]; exists n; [right; exact Hn|].
      destruct Hn as [[=]|Hn]; exact Hn.
    + split; [intros _; exists name; left; reflexivity|reflexivity].
Qed.

(** The summary ends in the line of the verdict, and in no other verdict. *)
Lemma summary_text_verdict (env : Env) (rs : dict bool) (th : dict float) (b : bool) :
  (exists body, summary_text env rs th
                = body +:+ LF +:+ "Overall Compatibility: "
                       +:+ passed_or_failed b +:+ LF)
  <-> forallb snd rs = b.
Proof.
  unfold summary_text, overall_line. split.
  - intros [body Hbody].
    destruct (forallb snd rs), b; try reflexivity; exfalso;
      rewrite <- !(str_app_assoc _ _ (LF +:+ _)) in Hbody;
      apply str_app_inj_suffix in Hbody as [_ Hbody];
      try reflexivity; vm_compute in Hbody; discriminate.
  - intros <-. exists (CTS_HEADER +:+ result_lines rs +:+ max_temperature_line env th).
    rewrite !str_app_assoc. reflexivity.
Qed.

(** C1.  The summary that [_write_summary] prepends to the output file ends
    in the line of the overall verdict: it reads "Overall Compatibility:
    Passed" exactly when every result in the record is true, and "Overall
    Compatibility: Failed" exactly when some result in the record is false;
    with no result in the record it reads "Passed".  The record is the
    dictionary [results] at finalization, whatever sequence of recordings
    produced it. *)
Theorem overall_compatibility_verdict (env : Env) (st : State) :
  suite_ok st = true ->
  exists st' summary,
    _write_summary env st = (Ret tt, st') /\
    fs (world st') !! file_path (self st)
    = Some (summary +:+ LF +:+ LF
            +:+ file_content st +:+ thermal_block env (thermals (self st))) /\
    ((exists body, summary = body +:+ LF +:+ "Overall Compatibility: "
                                  +:+ "Passed" +:+ LF)
     <-> forall name b, In (name, b) (results (self st)) -> b = true) /\
    ((exists body, summary = body +:+ LF +:+ "Overall Compatibility: "
                                  +:+ "Failed" +:+ LF)
     <-> exists name, In (name, false) (results (self st))) /\
    (results (self st) = [] ->
     exists body, summary = body +:+ LF +:+ "Overall Compatibility: "
                                 +:+ "Passed" +:+ LF).
Proof.
  intros Hok.
  exists (finalized env st), (summary_text env (results (self st)) (thermals (self st))).
  split; [apply write_summary_run, Hok|].
  split; [apply file_of_finalized|].
  split; [|split].
  - rewrite <- forallb_snd_true. apply (summary_text_verdict env _ _ true).
  - rewrite <- forallb_snd_false. apply (summary_text_verdict env _ _ false).
  - intros Hnil. apply (summary_text_verdict env _ _ true). rewrite Hnil. reflexivity.
Qed.

Lemma overall_compatibility_verdict_witness :
  suite_ok sample_recorded = true /\
  exists st', _write_summary (sample_env all_pass) sample_recorded = (Ret tt, st').
Proof.
  split; [reflexivity|].
  destruct (overall_compatibility_verdict (sample_env all_pass) sample_recorded eq_refl)
    as (st' & summary & Hrun & _).
  exists st'. exact Hrun.
Defined.

Lemma tmp_of_finalized (env : Env) (st : State) :
  fs (world (finalized env st)) !! (file_path (self st) +:+ ".tmp") = None.
Proof.
  unfold finalized. simpl.
  rewrite lookup_insert_ne by (intros H; symmetry in H; revert H; apply tmp_neq).
  apply lookup_delete_eq.
Qed.

(** C2.  After [_write_summary] the output file holds exactly: the banner,
    one line per test of the record ("<name>: Passed" or "<name>: Failed") in
    the order of the record, the line of the maximal temperature when a
    temperature was recorded (nothing otherwise), the line of the overall
    verdict, two newlines, and then what the file held when the summary was
    composed: the content captured until scope exit, followed by the block
    of temperatures that [_write_summary] itself sends to the sink first
    when a temperature was recorded.  The temporary file is gone.  When the
    results were recorded under names that differ, the order of the record
    is the order of the recordings. *)
Theorem finalized_file_content (env : Env) (st : State) :
  suite_ok st = true ->
  exists st',
    _write_summary env st = (Ret tt, st') /\
    fs (world st') !! file_path (self st)
    = Some (CTS_HEADER
            +:+ str_concat
                  (map (fun r : string * bool => fst r +:+ ": "
                                 +:+ (if snd r then "Passed" else "Failed") +:+ LF)
                       (results (self st)))
            +:+ match py_max (dict_values (thermals (self st))) with
                | Some m => LF +:+ "Max Temperature (C): " +:+ str_of_float env m
                | None => ""
                end
            +:+ LF +:+ "Overall Compatibility: "
            +:+ (if forallb snd (results (self st)) then "Passed" else "Failed") +:+ LF
            +:+ LF +:+ LF
            +:+ file_content st
            +:+ thermal_block env (thermals (self st))) /\
    (thermals (self st) = [] ->
       py_max (dict_values (thermals (self st))) = None /\
       thermal_block env (thermals (self st)) = "") /\
    (thermals (self st) <> [] ->
       exists m, py_max (dict_values (thermals (self st))) = Some m) /\
    fs (world st') !! (file_path (self st) +:+ ".tmp") = None /\
    (forall recs : list (string * bool),
       dict_wf recs = true ->
       results (self st) = dict_of_records recs -> results (self st) = recs).
Proof.
  intros Hok. exists (finalized env st).
  split; [apply write_summary_run, Hok|].
  split; [|split; [|split; [|split]]].
  - rewrite file_of_finalized.
    unfold summary_text, result_lines, result_line, max_temperature_line,
      overall_line, passed_or_failed.
    rewrite !str_app_assoc. reflexivity.
  - intros ->. split; reflexivity.
  - intros Hne. apply py_max_nonempty.
    destruct (thermals (self st)); [congruence|discriminate].
  - apply tmp_of_finalized.
  - intros recs Hwf ->. apply dict_of_records_distinct, Hwf.
Qed.

Lemma finalized_file_content_witness :
  suite_ok sample_recorded = true /\
  exists st',
    _write_summary (sample_env all_pass) sample_recorded = (Ret tt, st') /\
    fs (world st') !! "/home/cts/tflite_utils_test.txt"
    = Some (CTS_HEADER
            +:+ "lstpu: Failed" +:+ LF
            +:+ "tflite_utils_test: Passed" +:+ LF
            +:+ LF +:+ "Max Temperature (C): 52.0"
            +:+ LF +:+ "Overall Compatibility: Failed" +:+ LF
            +:+ LF +:+ LF
            +:+ "captured output" +:+ LF
            +:+ LF +:+ SECTION_HEADER
            +:+ "Temperatures During Tests" +:+ LF
            +:+ SECTION_HEADER
            +:+ "detection_models_test: 41.5" +:+ LF
            +:+ "classification_models_test: 52.0" +:+ LF
            +:+ LF).
Proof.
  split; [reflexivity|].
  destruct (finalized_file_content (sample_env all_pass) sample_recorded eq_refl)
    as (st' & Hrun & Hfile & _).
  exists st'. split; [exact Hrun|]. refine (eq_trans Hfile _). vm_compute. reflexivity.
Defined.

(** C4.  When the thermal record is not empty the summary has, between the
    lines of the tests and the line of the overall verdict, the line "Max
    Temperature (C): <m>" where [m] is a maximum of the recorded peak
    values: one of them, with none of them above it.  When the thermal
    record is empty there is nothing between those lines. *)
Theorem max_temperature_line_of_summary (env : Env) (st : State) :
  suite_ok st = true ->
  exists st' line,
    _write_summary env st = (Ret tt, st') /\
    fs (world st') !! file_path (self st)
    = Some ((CTS_HEADER +:+ result_lines (results (self st))
             +:+ line +:+ overall_line (results (self st)))
            +:+ LF +:+ LF
            +:+ file_content st +:+ thermal_block env (thermals (self st))) /\
    (thermals (self st) = [] -> line = "") /\
    (thermals (self st) <> [] ->
     exists m, is_maximum m (dict_values (thermals (self st))) /\
               line = LF +:+ "Max Temperature (C): " +:+ str_of_float env m).
Proof.
  intros Hok.
  exists (finalized env st), (max_temperature_line env (thermals (self st))).
  split; [apply write_summary_run, Hok|].
  split; [apply file_of_finalized|].
  unfold max_temperature_line. split.
  - intros ->. reflexivity.
  - intros Hne.
    destruct (py_max (dict_values (thermals (self st)))) as [m|] eqn:Hmax.
    + exists m. split; [apply py_max_spec, Hmax|reflexivity].
    + apply py_max_None in Hmax. destruct (thermals (self st)); [congruence|discriminate].
Qed.

Lemma max_temperature_line_of_summary_witness :
  suite_ok sample_recorded = true /\
  exists st' m,
    _write_summary (sample_env all_pass) sample_recorded = (Ret tt, st') /\
    is_maximum m [41.5%float; 52%float].
Proof.
  split; [reflexivity|].
  destruct (max_temperature_line_of_summary (sample_env all_pass) sample_recorded eq_refl)
    as (st' & line & Hrun & _ & _ & Hline).
  destruct (Hline ltac:(discriminate)) as (m & Hmax & _).
  exists st', m. split; [exact Hrun|exact Hmax].
Defined.

(** ** Running a test *)

Lemma with_suite_run (env : Env) (body : M unit) (st st1 : State) :
  body st = (Ret tt, st1) -> suite_ok st1 = true ->
  with_suite env body st = (Ret tt, finalized env st1).
Proof.
  intros Hbody Hok. unfold with_suite, TestSuite__exit__.
  rewrite Hbody. apply write_summary_run, Hok.
Qed.

Lemma forallb_snd_set_false (name : string) (rs : dict bool) :
  forallb snd (dict_set name false rs) = false.
Proof.
  apply forallb_snd_false. exists name.
  induction rs as [|[k v] rs IH]; simpl; [left; reflexivity|].
  destruct (String.eqb name k); [left; reflexivity|right; exact IH].
Qed.

(** C3.  When the subprocess of a test cannot be launched, [run_test] does
    not raise: it sends the heading of the test and then the message of the
    exception, as a line, to the file and to the console, and records false
    under the name of the test; the thermal record is left alone.  The run
    goes on: the [with] statement around it ends without an exception and
    with the summary written, in which the overall verdict is "Failed". *)
Theorem launch_failure_recorded
    (env : Env) (current_test : string) (args : list string) (e : exn) (st : State) :
  suite_ok st = true ->
  popen env (test_command env current_test args) = LaunchError e ->
  exists st1 st2,
    run_test env (current_test :: args) st = (Ret tt, st1) /\
    file_content st1
    = file_content st +:+ test_heading current_test +:+ str_exn e +:+ LF /\
    stdout (world st1)
    = stdout (world st) +:+ test_heading current_test +:+ str_exn e +:+ LF /\
    results (self st1) = dict_set current_test false (results (self st)) /\
    dict_get current_test (results (self st1)) = Some false /\
    thermals (self st1) = thermals (self st) /\
    with_suite env (run_test env (current_test :: args)) st = (Ret tt, st2) /\
    fs (world st2) !! file_path (self st)
    = Some (summary_text env (results (self st1)) (thermals (self st1))
            +:+ LF +:+ LF
            +:+ file_content st1 +:+ thermal_block env (thermals (self st1))) /\
    overall_line (results (self st1))
    = LF +:+ "Overall Compatibility: " +:+ "Failed" +:+ LF.
Proof.
  intros Hok Hlaunch.
  pose proof (suite_ok_inv st Hok) as (Hopen & _).
  pose proof (run_test_run env current_test args st Hopen) as Hrun.
  pose proof (suite_ok_tested env current_test args st Hok) as Hok1.
  unfold tested in Hrun, Hok1. rewrite Hlaunch in Hrun, Hok1.
  eexists _, _. split; [exact Hrun|].
  split; [apply (file_content_emit _ (spawn _ st))|].
  split; [reflexivity|].
  split; [reflexivity|].
  split; [apply dict_get_set_eq|].
  split; [reflexivity|].
  split; [apply (with_suite_run env _ _ _ Hrun Hok1)|].
  split.
  { match goal with
    | |- fs (world (finalized _ ?s)) !! _ = _ => exact (file_of_finalized env s)
    end. }
  unfold overall_line. simpl results. rewrite forallb_snd_set_false. reflexivity.
Qed.

Lemma launch_failure_recorded_witness :
  suite_ok sample_suite = true /\
  popen (sample_env nothing_installed)
        (test_command (sample_env nothing_installed) "detection_models_test"
                      ["--gtest_repeat=100"])
  = LaunchError (no_such_file "/home/cts/detection_models_test") /\
  exists st1,
    run_test (sample_env nothing_installed)
             ["detection_models_test"; "--gtest_repeat=100"] sample_suite
    = (Ret tt, st1) /\
    results (self st1) = [("detection_models_test", false)].
Proof.
  split; [reflexivity|]. split; [reflexivity|].
  destruct (launch_failure_recorded (sample_env nothing_installed)
              "detection_models_test" ["--gtest_repeat=100"]
              (no_such_file "/home/cts/detection_models_test") sample_suite
              eq_refl eq_refl)
    as (st1 & st2 & Hrun & _ & _ & Hres & _).
  exists st1. split; [exact Hrun|exact Hres].
Defined.




(** ** The hardware detector *)

Lemma existsb_contains (needle : string) (lines : list string) :
  existsb (str_contains needle) lines = true <->
  exists line before after,
    In line lines /\ line = before +:+ needle +:+ after.
Proof.
  rewrite existsb_exists. split.
  - intros (line & Hin & (before & after & H)%str_contains_spec).
    exists line, before, after. split; assumption.
  - intros (line & before & after & Hin & H). exists line. split; [exact Hin|].
    apply str_contains_spec. exists before, after. exact H.
Qed.

(** C7.  [detect_tpus] does not raise and adds one to the count of devices
    for every line it reads from the detection utility.  The PCI flag is set
    afterwards exactly when it was set before or some line contains "PCI",
    and so for the USB flag and "USB": a flag that is set stays set.  Under
    "lstpu" it records true when the count is above zero and false when it is
    zero.  To the sink, the file and the console alike, it sends its heading,
    the lines read, the message of the exception when the utility did not
    launch or reading it raised, and, when the count is zero and then alone,
    the line "No TPUs detected" at the end. *)
Theorem detect_tpus_counts_lines (env : Env) (st : State) :
  fo_closed (file (self st)) = false ->
  let lines := output_lines (popen env (lstpu_command env)) in
  exists st',
    detect_tpus env st = (Ret (tpus (self st')), st') /\
    tpus (self st') = tpus (self st) + length lines /\
    (pci (self st') = true <->
     pci (self st) = true \/
     exists line before after, In line lines /\ line = before +:+ "PCI" +:+ after) /\
    (usb (self st') = true <->
     usb (self st) = true \/
     exists line before after, In line lines /\ line = before +:+ "USB" +:+ after) /\
    results (self st')
    = dict_set "lstpu" (negb (Nat.eqb (tpus (self st')) 0)) (results (self st)) /\
    (dict_get "lstpu" (results (self st')) = Some true <-> 0 < tpus (self st')) /\
    (dict_get "lstpu" (results (self st')) = Some false <-> tpus (self st') = 0) /\
    let sent :=
      lstpu_heading +:+ str_concat lines
      +:+ match popen env (lstpu_command env) with
          | LaunchError e => str_exn e +:+ LF
          | Running _ _ => ""
          | ReadError _ e _ => str_exn e +:+ LF
          end
      +:+ (if Nat.eqb (tpus (self st')) 0 then "No TPUs detected" +:+ LF else "") in
    file_content st' = file_content st +:+ sent /\
    stdout (world st') = stdout (world st) +:+ sent.
Proof.
  intros Hopen lines. exists (detected env st).
  split; [apply detect_tpus_run, Hopen|].
  set (failure := match popen env (lstpu_command env) with
                  | LaunchError e => str_exn e +:+ LF
                  | Running _ _ => ""
                  | ReadError _ e _ => str_exn e +:+ LF
                  end).
  assert (Hfound : forall n : nat,
            (if negb (Nat.eqb n 0) then "" else "No TPUs detected" +:+ LF)
            = (if Nat.eqb n 0 then "No TPUs detected" +:+ LF else ""))
    by (intros n; destruct (Nat.eqb n 0); reflexivity).
  assert (Hfc : file_content (detected env st)
                = file_content st +:+ lstpu_heading +:+ str_concat lines
                  +:+ failure
                  +:+ (if Nat.eqb (tpus (self st) + length lines) 0
                       then "No TPUs detected" +:+ LF else "")).
  { unfold detected, record. fold lines. fold failure.
    change (file_content {| self := ?s; world := world (emit ?m ?st0) |})
      with (file_content (emit m st0)).
    rewrite file_content_emit.
    change (file_content {| self := counted lines (self st);
                            world := world (spawn (lstpu_command env) st) |})
      with (file_content st).
    cbn [counted tpus]. rewrite Hfound. reflexivity. }
  assert (Hout : stdout (world (detected env st))
                 = stdout (world st) +:+ lstpu_heading +:+ str_concat lines
                   +:+ failure
                   +:+ (if Nat.eqb (tpus (self st) + length lines) 0
                        then "No TPUs detected" +:+ LF else "")).
  { unfold detected, record. fold lines. fold failure.
    cbn [world emit stdout set_stdout self spawn counted tpus].
    rewrite Hfound. reflexivity. }
  revert Hfc Hout.
  unfold detected. fold lines. fold failure.
  cbn [record self results tpus pci usb set_results emit counted].
  intros Hfc Hout.
  split; [reflexivity|].
  split; [rewrite orb_true_iff, existsb_contains; reflexivity|].
  split; [rewrite orb_true_iff, existsb_contains; reflexivity|].
  split; [reflexivity|]. rewrite dict_get_set_eq.
  split; [|split].
  - destruct (Nat.eqb_spec (tpus (self st) + length lines) 0) as [H|H]; simpl.
    + split; [discriminate|lia].
    + split; [lia|reflexivity].
  - destruct (Nat.eqb_spec (tpus (self st) + length lines) 0) as [H|H]; simpl.
    + split; [intros _; exact H|reflexivity].
    + split; [discriminate|intros H'; contradiction].
  - cbv zeta. split; [exact Hfc|exact Hout].
Qed.

Lemma detect_tpus_counts_lines_witness :
  fo_closed (file (self sample_suite)) = false /\
  exists st',
    detect_tpus (sample_env two_tpus) sample_suite = (Ret 2, st') /\
    pci (self st') = true /\ usb (self st') = true /\
    results (self st') = [("lstpu", true)].
Proof.
  split; [reflexivity|].
  destruct (detect_tpus_counts_lines (sample_env two_tpus) sample_suite eq_refl)
    as (st' & Hrun & Htpus & Hpci & Husb & Hres & _).
  exists st'. rewrite Htpus in Hrun, Hres.
  split; [exact Hrun|]. split; [|split; [|exact Hres]].
  - apply Hpci. right.
    exists ("/sys/bus/PCI/devices/0000:01:00.0" +:+ LF), "/sys/bus/",
      ("/devices/0000:01:00.0" +:+ LF).
    split; [left; reflexivity|reflexivity].
  - apply Husb. right.
    exists ("/sys/bus/USB/devices/2-1" +:+ LF), "/sys/bus/", ("/devices/2-1" +:+ LF).
    split; [right; left; reflexivity|reflexivity].
Defined.

(** ** The thermal sampler *)

(** C8, as the specification states it, fails: a read failure after a
    reading was obtained does not keep the sampler from recording.  The first
    sensor reads 45000 and the second cannot be read; 45.0 is recorded. *)
Lemma read_failure_keeps_earlier_readings :
  read_failure (sample_env one_sensor_unreadable) /\
  thermals (self sample_suite) = [] /\
  thermals (self (snd (_read_temperatures (sample_env one_sensor_unreadable)
                         "detection_models_test" sample_suite)))
  = [("detection_models_test", 45%float)].
Proof.
  split; [|split; reflexivity].
  right. left. exists ("cat: /sys/class/apex/apex_1/temp: Permission denied" +:+ LF).
  split; [right; left; reflexivity|reflexivity].
Qed.

(** C8, amended.  The thermal sampler never raises and sends nothing to the
    sink.  Its readings are the values read before the first line that is
    not a number, each divided by 1000 (none when the command does not
    launch).  If and only if there is at least one reading, it records a
    maximum of the readings under the name of the current test; otherwise
    the thermal record is as it was, as it is when the command does not
    launch or its first line is not a number. *)
Theorem thermal_sampler_records_maximum
    (env : Env) (current_test : string) (st : State) :
  let temperatures :=
    map (fun x => (x / 1000)%float)
        (parsed_prefix env (output_lines (popen env cat_command))) in
  exists st',
    _read_temperatures env current_test st = (Ret tt, st') /\
    (temperatures = [] -> thermals (self st') = thermals (self st)) /\
    (temperatures <> [] ->
     exists m, is_maximum m temperatures /\
               thermals (self st') = dict_set current_test m (thermals (self st))) /\
    results (self st') = results (self st) /\
    fs (world st') = fs (world st) /\
    stdout (world st') = stdout (world st) /\
    ((exists e, popen env cat_command = LaunchError e) -> temperatures = []) /\
    (forall line rest returncode,
       popen env cat_command = Running (line :: rest) returncode ->
       float_of_str env line = None -> temperatures = []).
Proof.
  intros temperatures. exists (sampled env current_test st).
  split; [apply read_temperatures_run|].
  unfold sampled. fold temperatures. change (readings env) with temperatures.
  split; [intros ->; reflexivity|].
  split.
  { intros Hne. destruct (py_max temperatures) as [m|] eqn:Hmax.
    - exists m. split; [apply py_max_spec, Hmax|reflexivity].
    - apply py_max_None in Hmax. contradiction. }
  split; [destruct (py_max temperatures); reflexivity|].
  split; [reflexivity|]. split; [reflexivity|].
  split.
  - intros [e He]. subst temperatures. rewrite He. reflexivity.
  - intros line rest rc Hp Hline. subst temperatures. rewrite Hp. simpl.
    rewrite Hline. reflexivity.
Qed.

Lemma thermal_sampler_records_maximum_witness :
  exists st' m,
    _read_temperatures (sample_env one_sensor_unreadable) "detection_models_test"
                       sample_suite = (Ret tt, st') /\
    is_maximum m [45%float] /\
    thermals (self st') = [("detection_models_test", m)].
Proof.
  destruct (thermal_sampler_records_maximum (sample_env one_sensor_unreadable)
              "detection_models_test" sample_suite)
    as (st' & Hrun & _ & Hmax & _).
  destruct (Hmax ltac:(discriminate)) as (m & Hm & Hth).
  exists st', m. split; [exact Hrun|]. split; [exact Hm|exact Hth].
Defined.

(** ** The driver *)









(** C10.  Constructing the suite opens the file at the given path for
    writing.  When [open] accepts the path the constructor returns, and
    whatever a file at that path held before, it is empty when the
    constructor returns; the outcome of the constructor is the one it has
    when there was no such file.  A run of [main] that gets past the test
    data and opens its output file therefore ends the same whatever the
    output file of an earlier run held: that content is lost. *)
Theorem init_truncates_output_file (env : Env) (args : Namespace) (w : World)
    (path old : string) :
  (open_error env path = None ->
   exists st, TestSuite__init__ env path w = Ret st) /\
  (forall st,
     TestSuite__init__ env path w = Ret st ->
     fs (world st) !! path = Some "" /\ file_content st = "") /\
  TestSuite__init__ env path (set_fs (<[path := old]> (fs w)) w)
  = TestSuite__init__ env path (set_fs (delete path (fs w)) w) /\
  (fetched env = true ->
   open_error env (output_file env args) = None ->
   main env args (set_fs (<[output_file env args := old]> (fs w)) w)
   = main env args (set_fs (delete (output_file env args) (fs w)) w)).
Proof.
  assert (Hopened : forall p (w1 : World) (files : gmap string string),
            opened p (set_fs (<[p := old]> files) w1)
            = opened p (set_fs (delete p files) w1)).
  { intros p w1 files. unfold opened, set_fs. simpl.
    rewrite insert_insert_eq, insert_delete_eq. reflexivity. }
  split; [intros Hopen; eexists; apply init_run, Hopen|].
  split.
  { intros st (_ & ->)%init_inv.
    split; [simpl; apply lookup_insert_eq|].
    unfold file_content; simpl; rewrite lookup_insert_eq; reflexivity. }
  split.
  { unfold TestSuite__init__. destruct (open_error env path); [reflexivity|].
    f_equal. apply (Hopened path w (fs w)). }
  intros Hfetched Hopen. rewrite !main_run by assumption. f_equal. f_equal.
  unfold main_state. f_equal.
  assert (Hst : opened (output_file env args)
                  (after_fetch env (set_fs (<[output_file env args := old]> (fs w)) w))
                = opened (output_file env args)
                    (after_fetch env (set_fs (delete (output_file env args) (fs w)) w))).
  { unfold after_fetch. destruct (isdir_test_data env); [apply (Hopened _ w (fs w))|].
    unfold opened, unpacked, console, set_fs, set_stdout. simpl.
    f_equal. f_equal. apply map_eq. intros q.
    destruct (decide (q = output_file env args)) as [->|Hne].
    - rewrite !lookup_insert_eq. reflexivity.
    - rewrite !lookup_insert_ne by (intros Heq; apply Hne; symmetry; exact Heq).
      rewrite !lookup_apply_changes.
      rewrite lookup_insert_ne by (intros Heq; apply Hne; symmetry; exact Heq).
      rewrite lookup_delete_ne by (intros Heq; apply Hne; symmetry; exact Heq).
      reflexivity. }
  rewrite Hst. reflexivity.
Qed.

Lemma init_truncates_output_file_witness :
  fetched (sample_env all_pass) = true /\
  open_error (sample_env all_pass) (output_file (sample_env all_pass) default_args)
  = None /\
  main (sample_env all_pass) default_args
       (set_fs (<["/home/cts/tflite_utils_test.txt" := "an earlier run"]> ∅) empty_world)
  = main (sample_env all_pass) default_args
         (set_fs (delete "/home/cts/tflite_utils_test.txt" ∅) empty_world).
Proof.
  split; [reflexivity|]. split; [reflexivity|].
  exact (proj2 (proj2 (proj2
           (init_truncates_output_file (sample_env all_pass) default_args empty_world
              "/home/cts/tflite_utils_test.txt" "an earlier run"))) eq_refl eq_refl).
Defined.

(** * Further properties of the code *)

(** ** Diagnostic commands *)

Lemma for_each_wanted (output_parse : string) (lines : list string) (a : string)
    (st : State) :
  fo_closed (file (self st)) = false ->
  for_each lines
    (fun line =>
       when (String.eqb output_parse "" || str_contains output_parse line)
            (_file_print line))
    (emit a st)
  = (Ret tt, emit (a +:+ str_concat (List.filter (line_wanted output_parse) lines)) st).
Proof.
  intros Hopen. revert a. induction lines as [|line lines IH]; intros a.
  - simpl. rewrite str_app_nil_r. reflexivity.
  - cbn [for_each List.filter]. fold (line_wanted output_parse line).
    destruct (line_wanted output_parse line); cbn [when].
    + rewrite (bind_run _ _ _ _ _ (file_print_run line (emit a st) Hopen)).
      rewrite emit_emit, IH. cbn [str_concat]. rewrite str_app_assoc. reflexivity.
    + rewrite bind_ret. apply IH.
Qed.

Lemma run_linux_system_command_run (env : Env) (header : string)
    (command : list string) (output_parse : string) (st : State) :
  fo_closed (file (self st)) = false ->
  _run_linux_system_command env header command output_parse st
  = (Ret tt, commanded env header command output_parse st).
Proof.
  intros Hopen. unfold _run_linux_system_command, commanded, command_output.
  rewrite (bind_run _ _ _ _ _ (file_print_run _ st Hopen)).
  fold (command_heading header).
  unfold try_except. unfold bind at 1. rewrite popen_run, spawn_emit.
  destruct (popen env (mkCommand command false)) as [e|lines rc|lines e rc].
  - rewrite (file_print_run _ (emit _ (spawn _ st)) Hopen), emit_emit. reflexivity.
  - rewrite (for_lines_run (mkProcess lines None rc) _ _ _
               (for_each_wanted _ _ _ (spawn _ st) Hopen)).
    reflexivity.
  - rewrite (for_lines_run (mkProcess lines (Some e) rc) _ _ _
               (for_each_wanted _ _ _ (spawn _ st) Hopen)).
    cbn [proc_broken].
    rewrite (file_print_run _ (emit _ (spawn _ st)) Hopen), emit_emit.
    rewrite !str_app_assoc. reflexivity.
Qed.

Lemma commanded_open (env : Env) (header : string) (command : list string)
    (output_parse : string) (st : State) :
  self (commanded env header command output_parse st) = self st.
Proof. reflexivity. Qed.

Lemma print_system_info_run (env : Env) (st : State) :
  fo_closed (file (self st)) = false ->
  print_system_info env st = (Ret tt, informed env st).
Proof.
  intros Hopen. unfold print_system_info, informed, diagnostics.
  rewrite (bind_run _ _ _ _ _ (file_print_run _ st Hopen)).
  rewrite (bind_run _ _ _ _ _ (file_print_run _ (emit _ st) Hopen)), emit_emit.
  rewrite (bind_run _ _ _ _ _ (file_print_run _ (emit _ st) Hopen)), emit_emit.
  rewrite (bind_run _ _ _ _ _ (file_print_run _ (emit _ st) Hopen)), emit_emit.
  match goal with
  | |- context [emit ?x st] =>
      replace x with (system_info_text env)
        by (unfold system_info_text; rewrite !str_app_assoc; reflexivity)
  end.
  set (st1 := emit (system_info_text env) st).
  assert (Hopen1 : fo_closed (file (self st1)) = false) by exact Hopen.
  change (self (emit (system_info_text env) st)) with (self st1).
  change (pci (self st)) with (pci (self st1)).
  change (usb (self st)) with (usb (self st1)).
  clearbody st1.
  destruct (String.eqb (sys_platform env) "linux"); [|reflexivity].
  unfold when. rewrite bind_get_self.
  destruct (pci (self st1)).
  - cbn [fold_left fst snd].
    rewrite (bind_run _ _ _ _ _ (run_linux_system_command_run env _ _ _ st1 Hopen1)).
    apply run_linux_system_command_run. exact Hopen1.
  - destruct (usb (self st1)); [|reflexivity].
    cbn [fold_left fst snd].
    rewrite (bind_run _ _ _ _ _ (run_linux_system_command_run env _ _ _ st1 Hopen1)).
    erewrite bind_run by (apply run_linux_system_command_run; exact Hopen1).
    erewrite bind_run by (apply run_linux_system_command_run; exact Hopen1).
    apply run_linux_system_command_run. exact Hopen1.
Qed.

Lemma file_content_commanded (env : Env) (header : string) (command : list string)
    (output_parse : string) (st : State) :
  file_content (commanded env header command output_parse st)
  = file_content st +:+ command_heading header
    +:+ command_output env command output_parse.
Proof. unfold commanded. apply (file_content_emit _ (spawn _ st)). Qed.

Lemma filter_wanted_all (lines : list string) :
  List.filter (line_wanted "") lines = lines.
Proof.
  induction lines as [|line lines IH]; [reflexivity|].
  simpl. rewrite IH. reflexivity.
Qed.

(** X1.  [_run_linux_system_command] on an open file never raises: it gives
    the command to [Popen], leaves the suite as it was, and adds to the file
    and to the console the heading and then: the message of the exception,
    when the command does not launch; otherwise the lines read from the
    output that contain [output_parse], in their order (every line when
    [output_parse] is empty), and after them the message of the exception
    when reading the output raised. *)
Theorem diagnostic_command_echoes_wanted_lines
    (env : Env) (header : string) (command : list string) (output_parse : string)
    (st : State) :
  fo_closed (file (self st)) = false ->
  exists st',
    _run_linux_system_command env header command output_parse st = (Ret tt, st') /\
    self st' = self st /\
    spawned (world st') = spawned (world st) ++ [mkCommand command false] /\
    (let sent :=
       LF +:+ "***** " +:+ header +:+ " *****" +:+ LF
       +:+ match popen env (mkCommand command false) with
           | LaunchError e => str_exn e +:+ LF
           | Running lines _ =>
               str_concat (List.filter (line_wanted output_parse) lines)
           | ReadError lines e _ =>
               str_concat (List.filter (line_wanted output_parse) lines)
               +:+ str_exn e +:+ LF
           end in
     file_content st' = file_content st +:+ sent /\
     stdout (world st') = stdout (world st) +:+ sent) /\
    (forall lines line,
       In line (List.filter (line_wanted output_parse) lines) <->
       In line lines /\
       (output_parse = "" \/
        exists before after, line = before +:+ output_parse +:+ after)) /\
    (forall lines, output_parse = "" ->
       List.filter (line_wanted output_parse) lines = lines).
Proof.
  intros Hopen. exists (commanded env header command output_parse st).
  split; [apply run_linux_system_command_run, Hopen|].
  split; [reflexivity|]. split; [reflexivity|].
  split.
  { cbv zeta. split.
    - rewrite file_content_commanded. unfold command_heading, command_output.
      rewrite !str_app_assoc. reflexivity.
    - unfold commanded, command_heading, command_output.
      cbn [emit world stdout set_stdout spawn].
      rewrite !str_app_assoc. reflexivity. }
  split.
  - intros lines line. rewrite filter_In. unfold line_wanted.
    rewrite orb_true_iff, String.eqb_eq, str_contains_spec. reflexivity.
  - intros lines ->. apply filter_wanted_all.
Qed.

Lemma diagnostic_command_echoes_wanted_lines_witness :
  fo_closed (file (self sample_suite)) = false /\
  exists st',
    _run_linux_system_command (sample_env two_tpus) "PCI Info" ["lspci"] "PCI"
                              sample_suite = (Ret tt, st') /\
    file_content st'
    = "captured output" +:+ LF +:+ LF +:+ "***** PCI Info *****" +:+ LF
      +:+ "/sys/bus/PCI/devices/0000:01:00.0" +:+ LF.
Proof.
  split; [reflexivity|].
  destruct (diagnostic_command_echoes_wanted_lines (sample_env two_tpus) "PCI Info"
              ["lspci"] "PCI" sample_suite eq_refl)
    as (st' & Hrun & _ & _ & (Hfile & _) & _).
  exists st'. split; [exact Hrun|]. refine (eq_trans Hfile _). vm_compute. reflexivity.
Defined.




(** ** Leaving the [with] statement *)

(** X3.  The summary is written also when the body of the [with] statement
    raises: [__exit__] runs on the state the body left, closes the file and
    prepends the summary, and the exception of the body is raised again
    afterwards.  So it is for [run_test] of an empty list, which raises
    IndexError before it prints anything. *)
Theorem exit_runs_when_body_raises
    (env : Env) (body : M unit) (e : exn) (st st1 : State) :
  body st = (Raise e, st1) ->
  suite_ok st1 = true ->
  exists st2,
    with_suite env body st = (Raise e, st2) /\
    fo_closed (file (self st2)) = true /\
    fs (world st2) !! file_path (self st1)
    = Some (summary_text env (results (self st1)) (thermals (self st1))
            +:+ LF +:+ LF
            +:+ file_content st1 +:+ thermal_block env (thermals (self st1))) /\
    run_test env [] st = (Raise (Exception "IndexError" "list index out of range"), st).
Proof.
  intros Hbody Hok. exists (finalized env st1).
  split.
  { unfold with_suite, TestSuite__exit__. rewrite Hbody.
    rewrite (write_summary_run env st1 Hok). reflexivity. }
  split; [reflexivity|].
  split; [apply file_of_finalized|reflexivity].
Qed.

Lemma exit_runs_when_body_raises_witness :
  suite_ok sample_suite = true /\
  exists st2,
    with_suite (sample_env all_pass) (run_test (sample_env all_pass) []) sample_suite
    = (Raise (Exception "IndexError" "list index out of range"), st2) /\
    fs (world st2) !! "/home/cts/tflite_utils_test.txt"
    = Some (CTS_HEADER +:+ LF +:+ "Overall Compatibility: Passed" +:+ LF
            +:+ LF +:+ LF +:+ "captured output" +:+ LF).
Proof.
  split; [reflexivity|].
  destruct (exit_runs_when_body_raises (sample_env all_pass)
              (run_test (sample_env all_pass) [])
              (Exception "IndexError" "list index out of range")
              sample_suite sample_suite eq_refl eq_refl)
    as (st2 & Hrun & _ & Hfile & _).
  exists st2. split; [exact Hrun|]. refine (eq_trans Hfile _). vm_compute. reflexivity.
Defined.

(** ** Sampling the temperature after a test *)

(** X4.  [run_test] samples the temperature only after a test that launched
    and whose output was read to the end, and only with an accelerator on PCI
    and on Linux: then the cat command follows the command of the test, and a
    maximum of the readings is recorded under the name of the test when there
    is a reading.  In every other case, as when the test does not launch or
    reading its output raises, the command of the test is the only one and
    the thermal record is as it was. *)
Theorem run_test_samples_after_exit
    (env : Env) (current_test : string) (args : list string) (st : State) :
  fo_closed (file (self st)) = false ->
  let sampling :=
    runs_to_exit env (test_command env current_test args)
    && pci (self st) && String.eqb (sys_platform env) "linux" in
  exists st',
    run_test env (current_test :: args) st = (Ret tt, st') /\
    spawned (world st')
    = spawned (world st) ++ [test_command env current_test args]
      ++ (if sampling then [cat_command] else []) /\
    (sampling = false -> thermals (self st') = thermals (self st)) /\
    (sampling = true -> readings env = [] ->
     thermals (self st') = thermals (self st)) /\
    (sampling = true -> readings env <> [] ->
     exists m, is_maximum m (readings env) /\
               thermals (self st')
               = dict_set current_test m (thermals (self st))).
Proof.
  intros Hopen sampling. exists (tested env current_test args st).
  split; [apply run_test_run, Hopen|].
  subst sampling. unfold tested, runs_to_exit.
  destruct (popen env (test_command env current_test args)) as [e|lines rc|lines e rc];
    cbn [andb].
  3: { split; [reflexivity|]. split; [reflexivity|]. split; discriminate. }
  - split; [reflexivity|]. split; [reflexivity|]. split; discriminate.
  - destruct (pci (self st) && String.eqb (sys_platform env) "linux").
    + unfold sampled. cbn [record self world thermals set_results spawn emit spawned
                           set_spawned].
      split; [rewrite <- app_assoc; reflexivity|]. split; [discriminate|].
      split.
      * intros _ Hnil. rewrite Hnil. reflexivity.
      * intros _ Hne. destruct (py_max (readings env)) as [m|] eqn:Hmax.
        -- exists m. split; [apply py_max_spec, Hmax|reflexivity].
        -- apply py_max_None in Hmax. contradiction.
    + split; [reflexivity|]. split; [reflexivity|]. split; discriminate.
Qed.

Lemma run_test_samples_after_exit_witness :
  fo_closed (file (self sample_pci_suite)) = false /\
  exists st',
    run_test (sample_env two_sensors) ["detection_models_test"; "--gtest_repeat=100"]
             sample_pci_suite = (Ret tt, st') /\
    spawned (world st')
    = [mkCommand ["/home/cts/detection_models_test"; "--gtest_repeat=100"] false;
       cat_command].
Proof.
  split; [reflexivity|].
  destruct (run_test_samples_after_exit (sample_env two_sensors)
              "detection_models_test" ["--gtest_repeat=100"] sample_pci_suite eq_refl)
    as (st' & Hrun & Hsp & _).
  exists st'. split; [exact Hrun|exact Hsp].
Defined.

(** ** Writing the summary a second time *)

Lemma write_summary_without_thermals (env : Env) (st : State) (c : string) :
  thermals (self st) = [] ->
  fo_name (file (self st)) = file_path (self st) ->
  fs (world st) !! file_path (self st) = Some c ->
  dict_wf (results (self st)) = true ->
  _write_summary env st = (Ret tt, finalized env st).
Proof.
  intros Hth Hname Hc Hres. unfold _write_summary.
  rewrite bind_get_self, Hth. cbn [dict_nonempty when]. rewrite bind_ret.
  unfold file_close. rewrite bind_update_self, bind_get_self. cbn [self world].
  unfold open_read. rewrite bind_assoc, bind_get_world. cbn [self world file_path set_file].
  rewrite Hc, bind_ret.
  unfold open_write. rewrite bind_update_world. cbn [self world results].
  erewrite bind_run
    by (apply results_loop_run; intros [k v] Hr; apply dict_get_In; assumption).
  rewrite bind_get_self. cbn [self world thermals results file_path set_file fst snd andb].
  rewrite Hth. cbn [dict_nonempty]. rewrite bind_ret.
  unfold print, stdout_write, path_write. rewrite !bind_update_world.
  unfold path_read. rewrite bind_assoc, bind_get_world.
  cbn [self world fs stdout spawned set_fs set_stdout].
  rewrite !lookup_insert_eq.
  rewrite !(lookup_insert_ne _ _ (file_path (self st))) by apply tmp_neq.
  rewrite Hc, bind_ret, bind_update_world.
  unfold os_rename. rewrite bind_get_world.
  cbn [self world fs stdout spawned set_fs set_stdout].
  rewrite !lookup_insert_eq.
  unfold update_world, finalized, summary_text, overall_line, max_temperature_line,
    thermal_block, file_content.
  rewrite Hth, Hname, Hc.
  cbn [self world fs stdout spawned set_fs set_stdout from_option id dict_nonempty
       dict_values map py_max].
  unfold set_fs, set_stdout. cbn [fs stdout spawned].
  rewrite !delete_insert_eq, !str_app_nil_l, !str_app_nil_r, !str_app_assoc.
  reflexivity.
Qed.

(** X5.  The summary is to be written once.  Written a second time, with a
    temperature in the record, [_write_summary] raises ValueError, the file
    object being closed, and changes nothing; with no temperature in the
    record it does not raise and prepends the summary once more, so that the
    file holds it twice. *)
Theorem summary_written_twice (env : Env) (st : State) :
  suite_ok st = true ->
  (thermals (self st) <> [] ->
   _write_summary env (finalized env st)
   = (Raise (Exception "ValueError" "I/O operation on closed file."),
      finalized env st)) /\
  (thermals (self st) = [] ->
   exists st2,
     _write_summary env (finalized env st) = (Ret tt, st2) /\
     fs (world st2) !! file_path (self st)
     = Some (summary_text env (results (self st)) []
             +:+ LF +:+ LF
             +:+ summary_text env (results (self st)) []
             +:+ LF +:+ LF +:+ file_content st)).
Proof.
  intros (Hopen & Hname & [c Hc] & Hres & Hth)%suite_ok_inv. split.
  - intros Hne. unfold _write_summary. rewrite bind_get_self.
    change (thermals (self (finalized env st))) with (thermals (self st)).
    destruct (thermals (self st)) as [|r th]; [congruence|].
    cbn [dict_nonempty when]. apply bind_raise.
    unfold _write_thermal_summary. apply bind_raise.
    apply file_print_closed. reflexivity.
  - intros Hnil. exists (finalized env (finalized env st)).
    split.
    + apply write_summary_without_thermals
        with (c := summary_text env (results (self st)) (thermals (self st))
                   +:+ LF +:+ LF +:+ file_content st
                   +:+ thermal_block env (thermals (self st))).
      * exact Hnil.
      * exact Hname.
      * exact (file_of_finalized env st).
      * exact Hres.
    + pose proof (file_of_finalized env (finalized env st)) as H2.
      assert (Hfc : file_content (finalized env st)
                    = summary_text env (results (self st)) (thermals (self st))
                      +:+ LF +:+ LF +:+ file_content st
                      +:+ thermal_block env (thermals (self st))).
      { unfold file_content at 1.
        change (fo_name (file (self (finalized env st))))
          with (fo_name (file (self st))).
        rewrite Hname, file_of_finalized. reflexivity. }
      rewrite Hfc in H2.
      change (file_path (self (finalized env st))) with (file_path (self st)) in H2.
      change (results (self (finalized env st))) with (results (self st)) in H2.
      change (thermals (self (finalized env st))) with (thermals (self st)) in H2.
      rewrite H2, Hnil. cbn [thermal_block dict_nonempty].
      rewrite ?str_app_nil_r, ?str_app_assoc. reflexivity.
Qed.

Lemma summary_written_twice_witness :
  suite_ok sample_recorded = true /\
  _write_summary (sample_env all_pass) (finalized (sample_env all_pass) sample_recorded)
  = (Raise (Exception "ValueError" "I/O operation on closed file."),
     finalized (sample_env all_pass) sample_recorded).
Proof.
  split; [reflexivity|].
  exact (proj1 (summary_written_twice (sample_env all_pass) sample_recorded eq_refl)
               ltac:(discriminate)).
Defined.

(** ** What the methods keep *)

Lemma suite_ok_detected (env : Env) (st : State) :
  suite_ok st = true -> suite_ok (detected env st) = true.
Proof.
  intros Hok. unfold detected. apply suite_ok_record, suite_ok_emit.
  apply suite_ok_inv in Hok as (H1 & H2 & [c H3] & H4 & H5).
  apply suite_ok_intro with (c := c); assumption.
Qed.

Lemma suite_ok_commanded (env : Env) (header : string) (command : list string)
    (output_parse : string) (st : State) :
  suite_ok st = true -> suite_ok (commanded env header command output_parse st) = true.
Proof. intros Hok. unfold commanded. apply suite_ok_emit, suite_ok_spawn, Hok. Qed.

Lemma suite_ok_informed (env : Env) (st : State) :
  suite_ok st = true -> suite_ok (informed env st) = true.
Proof.
  intros Hok. unfold informed.
  assert (H : forall ds st0, suite_ok st0 = true ->
            suite_ok (fold_left
                        (fun st d => commanded env (fst (fst d)) (snd (fst d)) (snd d) st)
                        ds st0) = true).
  { induction ds as [|d ds IH]; intros st0 H0; [exact H0|].
    apply IH, suite_ok_commanded, H0. }
  apply H, suite_ok_emit, Hok.
Qed.

(** X6.  On a suite in working order (file open, at [file_path] and
    present; no name twice in either record) no method raises, and each
    leaves the suite in working order: [run_test] of a test with a name,
    [detect_tpus], [print_system_info], [_run_linux_system_command] and
    [_read_temperatures]; the constructor returns when [open] accepts the
    path, and the suite it makes is in working order. *)
Theorem methods_keep_working_order (env : Env) (st : State) :
  suite_ok st = true ->
  (forall current_test args,
     exists st', run_test env (current_test :: args) st = (Ret tt, st')
                 /\ suite_ok st' = true) /\
  (exists st', detect_tpus env st = (Ret (tpus (self st')), st')
               /\ suite_ok st' = true) /\
  (exists st', print_system_info env st = (Ret tt, st') /\ suite_ok st' = true) /\
  (forall header command output_parse,
     exists st', _run_linux_system_command env header command output_parse st
                 = (Ret tt, st')
                 /\ suite_ok st' = true) /\
  (forall current_test,
     exists st', _read_temperatures env current_test st = (Ret tt, st')
                 /\ suite_ok st' = true) /\
  (forall path w,
     open_error env path = None ->
     exists st0, TestSuite__init__ env path w = Ret st0 /\ suite_ok st0 = true).
Proof.
  intros Hok. pose proof (suite_ok_inv st Hok) as (Hopen & _).
  split; [|split; [|split; [|split; [|split]]]].
  - intros current_test args. eexists.
    split; [apply run_test_run, Hopen|apply suite_ok_tested, Hok].
  - eexists. split; [apply detect_tpus_run, Hopen|apply suite_ok_detected, Hok].
  - eexists. split; [apply print_system_info_run, Hopen|apply suite_ok_informed, Hok].
  - intros header command output_parse. eexists.
    split; [apply run_linux_system_command_run, Hopen|apply suite_ok_commanded, Hok].
  - intros current_test. eexists.
    split; [apply read_temperatures_run|apply suite_ok_sampled, Hok].
  - intros path w Hpath. eexists.
    split; [apply init_run, Hpath|apply suite_ok_init].
Qed.

Lemma methods_keep_working_order_witness :
  suite_ok sample_suite = true /\
  exists st',
    detect_tpus (sample_env two_tpus) sample_suite = (Ret (tpus (self st')), st') /\
    suite_ok st' = true.
Proof.
  split; [reflexivity|].
  exact (proj1 (proj2 (methods_keep_working_order (sample_env two_tpus) sample_suite
                         eq_refl))).
Defined.

Lemma mirrored_emit (base message : string) (st : State) :
  mirrored base st -> mirrored base (emit message st).
Proof.
  unfold mirrored. intros H. rewrite file_content_emit.
  cbn [emit world stdout]. rewrite H, str_app_assoc. reflexivity.
Qed.

Lemma mirrored_same (base : string) (st st' : State) :
  stdout (world st') = stdout (world st) ->
  file_content st' = file_content st ->
  mirrored base st -> mirrored base st'.
Proof. unfold mirrored. intros -> ->. trivial. Qed.

Lemma mirrored_commanded (env : Env) (base header : string) (command : list string)
    (output_parse : string) (st : State) :
  mirrored base st -> mirrored base (commanded env header command output_parse st).
Proof.
  intros H. unfold commanded. apply mirrored_emit.
  apply (mirrored_same base st); [reflexivity|reflexivity|exact H].
Qed.

Lemma mirrored_tested (env : Env) (base current_test : string) (args : list string)
    (st : State) :
  mirrored base st -> mirrored base (tested env current_test args st).
Proof.
  intros H. unfold tested.
  destruct (popen env (test_command env current_test args)) as [e|lines rc|lines e rc].
  3: { apply (mirrored_same base
                (emit (test_heading current_test +:+ str_concat lines +:+ str_exn e +:+ LF)
                      (spawn (test_command env current_test args) st)));
         [reflexivity|reflexivity|].
       apply mirrored_emit.
       apply (mirrored_same base st); [reflexivity|reflexivity|exact H]. }
  - apply (mirrored_same base (emit (test_heading current_test +:+ str_exn e +:+ LF)
                                    (spawn (test_command env current_test args) st)));
      [reflexivity|reflexivity|].
    apply mirrored_emit.
    apply (mirrored_same base st); [reflexivity|reflexivity|exact H].
  - apply (mirrored_same base (emit (test_heading current_test +:+ str_concat lines)
                                    (spawn (test_command env current_test args) st))).
    + destruct (pci (self st) && _); [|reflexivity].
      unfold sampled. destruct (py_max (readings env)); reflexivity.
    + destruct (pci (self st) && _); [|reflexivity].
      unfold sampled. destruct (py_max (readings env)); reflexivity.
    + apply mirrored_emit.
      apply (mirrored_same base st); [reflexivity|reflexivity|exact H].
Qed.

(** X7.  Until the summary is written the console mirrors the file: a suite
    that the constructor has just made has an empty file, and if the console shows some text [base] and
    then the content of the file, it still does after [_file_print],
    [run_test], [detect_tpus], [print_system_info] and
    [_run_linux_system_command]: whatever they add to the file they add to
    the console. *)
Theorem console_mirrors_file (env : Env) (base : string) (st : State) :
  fo_closed (file (self st)) = false ->
  mirrored base st ->
  (forall message,
     exists st', _file_print message st = (Ret tt, st') /\ mirrored base st') /\
  (forall current_test args,
     exists st', run_test env (current_test :: args) st = (Ret tt, st')
                 /\ mirrored base st') /\
  (exists st', detect_tpus env st = (Ret (tpus (self st')), st')
               /\ mirrored base st') /\
  (exists st', print_system_info env st = (Ret tt, st') /\ mirrored base st') /\
  (forall header command output_parse,
     exists st', _run_linux_system_command env header command output_parse st
                 = (Ret tt, st')
                 /\ mirrored base st') /\
  (forall path w,
     open_error env path = None ->
     exists st0, TestSuite__init__ env path w = Ret st0 /\ mirrored (stdout w) st0).
Proof.
  intros Hopen Hm.
  split; [|split; [|split; [|split; [|split]]]].
  - intros message. eexists.
    split; [apply file_print_run, Hopen|apply mirrored_emit, Hm].
  - intros current_test args. eexists.
    split; [apply run_test_run, Hopen|apply mirrored_tested, Hm].
  - eexists. split; [apply detect_tpus_run, Hopen|].
    unfold detected.
    match goal with
    | |- mirrored base (record ?n ?b (emit ?m ?s)) =>
        apply (mirrored_same base (emit m s)); [reflexivity|reflexivity|];
        apply mirrored_emit;
        apply (mirrored_same base st); [reflexivity|reflexivity|exact Hm]
    end.
  - eexists. split; [apply print_system_info_run, Hopen|].
    unfold informed.
    assert (H : forall ds st0, mirrored base st0 ->
              mirrored base
                (fold_left
                   (fun st d => commanded env (fst (fst d)) (snd (fst d)) (snd d) st)
                   ds st0)).
    { induction ds as [|d ds IH]; intros st0 H0; [exact H0|].
      apply IH, mirrored_commanded, H0. }
    apply H, mirrored_emit, Hm.
  - intros header command output_parse. eexists.
    split; [apply run_linux_system_command_run, Hopen|apply mirrored_commanded, Hm].
  - intros path w Hpath. eexists. split; [apply init_run, Hpath|].
    unfold mirrored, file_content. simpl.
    rewrite lookup_insert_eq. simpl. rewrite str_app_nil_r. reflexivity.
Qed.

Lemma console_mirrors_file_witness :
  fo_closed (file (self sample_suite)) = false /\
  mirrored "" sample_suite /\
  exists st',
    run_test (sample_env all_pass) ["tflite_utils_test"] sample_suite = (Ret tt, st') /\
    mirrored "" st'.
Proof.
  split; [reflexivity|]. split; [reflexivity|].
  exact (proj1 (proj2 (console_mirrors_file (sample_env all_pass) "" sample_suite
                         eq_refl eq_refl)) "tflite_utils_test" []).
Defined.

(** ** Detecting twice *)

Lemma dict_set_twice {V} (k : string) (v : V) (d : dict V) :
  dict_set k v (dict_set k v d) = dict_set k v d.
Proof.
  induction d as [|[k' v'] d IH]; simpl.
  - rewrite String.eqb_refl. reflexivity.
  - destruct (String.eqb k k') eqn:E; simpl.
    + rewrite String.eqb_refl. reflexivity.
    + rewrite E, IH. reflexivity.
Qed.

(** X8.  The count of [detect_tpus] is kept in the suite and is never set
    back: a second call counts the lines of the utility on top of the count
    of the first, so that on a new suite it returns twice the number of
    devices.  The record of results is the same after the second call as
    after the first. *)
Theorem detect_tpus_accumulates (env : Env) (st : State) :
  fo_closed (file (self st)) = false ->
  let n := length (output_lines (popen env (lstpu_command env))) in
  exists st1 st2,
    detect_tpus env st = (Ret (tpus (self st) + n), st1) /\
    detect_tpus env st1 = (Ret (tpus (self st) + n + n), st2) /\
    results (self st2) = results (self st1).
Proof.
  intros Hopen n.
  exists (detected env st), (detected env (detected env st)).
  split; [apply (detect_tpus_run env st Hopen)|].
  split; [apply (detect_tpus_run env (detected env st)); exact Hopen|].
  unfold detected. cbn [record self results set_results emit counted tpus].
  fold n.
  replace (Nat.eqb (tpus (self st) + n + n) 0) with (Nat.eqb (tpus (self st) + n) 0)
    by (destruct (Nat.eqb_spec (tpus (self st) + n) 0),
                 (Nat.eqb_spec (tpus (self st) + n + n) 0); [reflexivity|lia|lia|reflexivity]).
  apply dict_set_twice.
Qed.

Lemma detect_tpus_accumulates_witness :
  fo_closed (file (self sample_suite)) = false /\
  exists st1 st2,
    detect_tpus (sample_env two_tpus) sample_suite = (Ret 2, st1) /\
    detect_tpus (sample_env two_tpus) st1 = (Ret 4, st2).
Proof.
  split; [reflexivity|].
  destruct (detect_tpus_accumulates (sample_env two_tpus) sample_suite eq_refl)
    as (st1 & st2 & H1 & H2 & _).
  exists st1, st2. split; [exact H1|exact H2].
Defined.

(** ** What the summary and [main] leave alone *)



Lemma fs_other_emit (message q : string) (st : State) :
  q <> fo_name (file (self st)) ->
  fs (world (emit message st)) !! q = fs (world st) !! q.
Proof. intros Hq. unfold emit. cbn [world fs]. apply lookup_insert_ne. congruence. Qed.

Lemma fs_other_tested (env : Env) (current_test q : string) (args : list string)
    (st : State) :
  q <> fo_name (file (self st)) ->
  fs (world (tested env current_test args st)) !! q = fs (world st) !! q.
Proof.
  intros Hq. unfold tested.
  destruct (popen env (test_command env current_test args)) as [e|lines rc|lines e rc].
  - apply (fs_other_emit _ q (spawn _ st)). exact Hq.
  - destruct (pci (self st) && _).
    + unfold sampled. cbn [record world self].
      apply (fs_other_emit _ q (spawn _ st)). exact Hq.
    + apply (fs_other_emit _ q (spawn _ st)). exact Hq.
  - apply (fs_other_emit _ q (spawn _ st)). exact Hq.
Qed.

(** X10.  Of the files, [main] changes only what the test-data step changes,
    its output file and the file at <output file>.tmp.  With the test data
    at hand that step changes nothing; otherwise the files are as the
    extraction and the renaming left them, and a file they do not touch is
    as it was.  When [main] ends with an exception before there is a suite
    it has launched no command: after a failed download no file is
    changed; after a failed extraction the files are as it left them; and
    when [open] raises for the output file, the files are as the test-data
    step left them. *)
Theorem main_touches_only_its_output (env : Env) (args : Namespace) (w : World) :
  let extracted := apply_changes (fetch_changes env) (fs w) in
  let fetched_files := if isdir_test_data env then fs w else extracted in
  (forall q, fetch_changes env !! q = None -> extracted !! q = fs w !! q) /\
  match main env args w with
  | Completed r st =>
      fetched env = true /\
      open_error env (output_file env args) = None /\
      forall q,
        q <> output_file env args -> q <> output_file env args +:+ ".tmp" ->
        fs (world st) !! q = fetched_files !! q
  | Aborted e w' =>
      spawned w' = spawned w /\
      ((isdir_test_data env = false /\ download_error env = Some e /\ fs w' = fs w) \/
       (isdir_test_data env = false /\ download_error env = None /\
        extract_error env = Some e /\ fs w' = extracted) \/
       (fetched env = true /\ open_error env (output_file env args) = Some e /\
        fs w' = fetched_files))
  end.
Proof.
  intros extracted fetched_files.
  split.
  { intros q Hq. subst extracted. rewrite lookup_apply_changes, Hq. reflexivity. }
  destruct (fetched env) eqn:Hfetched.
  - destruct (open_error env (output_file env args)) as [e|] eqn:Hopen.
    { rewrite (main_unopened env args w e Hfetched Hopen).
      split; [apply spawned_after_fetch|].
      right. right. split; [reflexivity|]. split; [reflexivity|].
      apply fs_after_fetch. }
    rewrite (main_run env args w Hfetched Hopen).
    split; [reflexivity|]. split; [reflexivity|].
    intros q Hq Htmp.
    assert (Hpath : file_path (self (main_state env args w)) = output_file env args).
    { unfold main_state. destruct (selected 1 (test_name args)) as [a|]; [|reflexivity].
      unfold tested. destruct (popen env _); reflexivity. }
    unfold finalized. cbn [world fs]. rewrite Hpath.
    rewrite lookup_insert_ne by congruence.
    rewrite lookup_delete_ne by congruence.
    pose proof (fs_after_fetch env w) as Hw. fold extracted in Hw.
    fold fetched_files in Hw.
    unfold main_state. destruct (selected 1 (test_name args)) as [a|].
    + rewrite fs_other_tested by exact Hq.
      rewrite fs_other_emit by exact Hq.
      cbn [opened world fs set_fs]. rewrite lookup_insert_ne by congruence.
      rewrite Hw. reflexivity.
    + rewrite fs_other_emit by exact Hq.
      cbn [opened world fs set_fs]. rewrite lookup_insert_ne by congruence.
      rewrite Hw. reflexivity.
  - unfold main. unfold fetched in Hfetched.
    destruct (isdir_test_data env); [discriminate|].
    destruct (download_error env) as [e|].
    + split; [reflexivity|]. left. repeat split.
    + destruct (extract_error env) as [e|]; [|discriminate].
      split; [reflexivity|]. right. left. repeat split.
Qed.

Lemma main_touches_only_its_output_witness :
  exists st,
    main (sample_env_fetching all_pass) default_args empty_world
    = Completed (Ret tt) st /\
    fs (world st) !! "/home/cts/test_data/README.md" = Some "test data".
Proof.
  pose proof (main_touches_only_its_output (sample_env_fetching all_pass)
                default_args empty_world) as H.
  cbv zeta in H. destruct H as [_ H].
  rewrite (main_run (sample_env_fetching all_pass) default_args empty_world
             eq_refl eq_refl) in H.
  destruct H as (_ & _ & H).
  eexists. split; [apply main_run; reflexivity|].
  rewrite H by (vm_compute; discriminate). vm_compute. reflexivity.
Defined.

(** ** A whole run *)



(** ** A closed suite *)

(** X12.  Once the file object is closed, as it is after the summary, the
    methods that print raise ValueError at their first line of output and do
    nothing else: [run_test] launches no command and records no result,
    [detect_tpus] counts nothing, [print_system_info] and
    [_run_linux_system_command] run no command, and neither the file nor the
    console gets a character. *)
Theorem closed_suite_raises (env : Env) (st : State) :
  fo_closed (file (self st)) = true ->
  let e := Exception "ValueError" "I/O operation on closed file." in
  (forall message, _file_print message st = (Raise e, st)) /\
  (forall current_test args, run_test env (current_test :: args) st = (Raise e, st)) /\
  detect_tpus env st = (Raise e, st) /\
  print_system_info env st = (Raise e, st) /\
  (forall header command output_parse,
     _run_linux_system_command env header command output_parse st = (Raise e, st)) /\
  (forall st0, suite_ok st0 = true ->
     fo_closed (file (self (snd (_write_summary env st0)))) = true).
Proof.
  intros Hclosed e.
  split; [intros message; apply file_print_closed, Hclosed|].
  split; [intros current_test args; apply bind_raise, file_print_closed, Hclosed|].
  split; [apply bind_raise, file_print_closed, Hclosed|].
  split; [apply bind_raise, file_print_closed, Hclosed|].
  split; [intros header command output_parse;
          apply bind_raise, file_print_closed, Hclosed|].
  intros st0 Hok. rewrite (write_summary_run env st0 Hok). reflexivity.
Qed.

Lemma closed_suite_raises_witness :
  fo_closed (file (self (finalized (sample_env all_pass) sample_suite))) = true /\
  run_test (sample_env all_pass) ["tflite_utils_test"]
           (finalized (sample_env all_pass) sample_suite)
  = (Raise (Exception "ValueError" "I/O operation on closed file."),
     finalized (sample_env all_pass) sample_suite).
Proof.
  split; [reflexivity|].
  exact (proj1 (proj2 (closed_suite_raises (sample_env all_pass)
                         (finalized (sample_env all_pass) sample_suite) eq_refl))
               "tflite_utils_test" []).
Defined.

(** ** Reading every sensor *)

Lemma parsed_prefix_all (env : Env) (lines : list string) :
  (forall line, In line lines -> exists x, float_of_str env line = Some x) ->
  length (parsed_prefix env lines) = length lines /\
  forall line x, In line lines -> float_of_str env line = Some x ->
                 In x (parsed_prefix env lines).
Proof.
  induction lines as [|l lines IH]; intros Hall; simpl.
  - split; [reflexivity|intros line x []].
  - destruct (Hall l (or_introl eq_refl)) as [x0 Hx0]. rewrite Hx0.
    destruct IH as [Hlen Hin]; [intros line Hl; apply Hall; right; exact Hl|].
    split; [simpl; rewrite Hlen; reflexivity|].
    intros line x [<-|Hl] Hx.
    + left. congruence.
    + right. apply (Hin line x Hl Hx).
Qed.

(** X13.  When the cat command launches, its output is read to the end and
    every line of it is a number, the thermal sampler reads every sensor: there are as many
    readings as lines, each value divided by 1000 is among them, and with at
    least one line a maximum of them all is recorded under the name of the
    current test. *)
Theorem sampler_reads_every_sensor
    (env : Env) (current_test : string) (lines : list string) (returncode : Z)
    (st : State) :
  popen env cat_command = Running lines returncode ->
  (forall line, In line lines -> exists x, float_of_str env line = Some x) ->
  lines <> [] ->
  exists st' m,
    _read_temperatures env current_test st = (Ret tt, st') /\
    length (readings env) = length lines /\
    (forall line x, In line lines -> float_of_str env line = Some x ->
                    In (x / 1000)%float (readings env)) /\
    is_maximum m (readings env) /\
    thermals (self st') = dict_set current_test m (thermals (self st)).
Proof.
  intros Hp Hall Hne.
  destruct (parsed_prefix_all env lines Hall) as [Hlen Hin].
  assert (Hr : readings env
               = map (fun x => (x / 1000)%float) (parsed_prefix env lines))
    by (unfold readings; rewrite Hp; reflexivity).
  assert (Hlen' : length (readings env) = length lines)
    by (rewrite Hr, length_map; exact Hlen).
  destruct (py_max (readings env)) as [m|] eqn:Hmax.
  - exists (sampled env current_test st), m.
    split; [apply read_temperatures_run|]. split; [exact Hlen'|].
    split.
    { intros line x Hl Hx. rewrite Hr.
      apply (in_map (fun y => (y / 1000)%float) _ x), (Hin line x Hl Hx). }
    split; [apply py_max_spec, Hmax|].
    unfold sampled. rewrite Hmax. reflexivity.
  - apply py_max_None in Hmax. rewrite Hmax in Hlen'.
    destruct lines; [congruence|discriminate].
Qed.

Lemma sampler_reads_every_sensor_witness :
  popen (sample_env two_sensors) cat_command
  = Running ["41500" +:+ LF; "52000" +:+ LF] 0 /\
  exists st' m,
    _read_temperatures (sample_env two_sensors) "detection_models_test" sample_suite
    = (Ret tt, st') /\
    is_maximum m [41.5%float; 52%float] /\
    thermals (self st') = [("detection_models_test", m)].
Proof.
  split; [reflexivity|].
  destruct (sampler_reads_every_sensor (sample_env two_sensors) "detection_models_test"
              ["41500" +:+ LF; "52000" +:+ LF] 0 sample_suite eq_refl)
    as (st' & m & Hrun & _ & _ & Hmax & Hth).
  - intros line [<-|[<-|[]]]; eexists; reflexivity.
  - discriminate.
  - exists st', m. split; [exact Hrun|]. split; [exact Hmax|exact Hth].
Defined.

(** ** The block of temperatures *)

(** X14.  [_write_thermal_summary] on an open file, with no name twice in
    the thermal record, never raises and changes nothing but the sink: it
    adds to the file, and to the console alike, the heading "Temperatures
    During Tests" between two rules, one line "<test>: <temperature>" for
    every entry of the record in the order of the record, and an empty
    line. *)
Theorem thermal_summary_lists_the_record (env : Env) (st : State) :
  fo_closed (file (self st)) = false ->
  dict_wf (thermals (self st)) = true ->
  let block :=
    LF +:+ SECTION_HEADER +:+ "Temperatures During Tests" +:+ LF +:+ SECTION_HEADER
    +:+ str_concat
          (map (fun r : string * float =>
                  fst r +:+ ": " +:+ str_of_float env (snd r) +:+ LF)
               (thermals (self st)))
    +:+ LF in
  exists st',
    _write_thermal_summary env st = (Ret tt, st') /\
    self st' = self st /\
    spawned (world st') = spawned (world st) /\
    file_content st' = file_content st +:+ block /\
    stdout (world st') = stdout (world st) +:+ block.
Proof.
  intros Hopen Hwf block. exists (emit block st).
  split.
  - unfold _write_thermal_summary.
    rewrite (bind_run _ _ _ _ _ (file_print_run _ st Hopen)).
    rewrite (bind_run _ _ _ _ _ (file_print_run _ (emit _ st) Hopen)), emit_emit.
    rewrite (bind_run _ _ _ _ _ (file_print_run _ (emit _ st) Hopen)), emit_emit.
    rewrite bind_get_self. cbn [self emit].
    erewrite bind_run
      by (apply thermal_loop_run; [exact Hopen|];
          intros [k v] Hr; apply dict_get_In; assumption).
    rewrite (file_print_run _ (emit _ st) Hopen), emit_emit.
    subst block. unfold thermal_line. rewrite !str_app_assoc. reflexivity.
  - split; [reflexivity|]. split; [reflexivity|].
    split; [apply file_content_emit|reflexivity].
Qed.

Lemma thermal_summary_lists_the_record_witness :
  fo_closed (file (self sample_recorded)) = false /\
  dict_wf (thermals (self sample_recorded)) = true /\
  exists st',
    _write_thermal_summary (sample_env all_pass) sample_recorded = (Ret tt, st') /\
    file_content st'
    = "captured output" +:+ LF
      +:+ LF +:+ SECTION_HEADER +:+ "Temperatures During Tests" +:+ LF +:+ SECTION_HEADER
      +:+ "detection_models_test: 41.5" +:+ LF
      +:+ "classification_models_test: 52.0" +:+ LF
      +:+ LF.
Proof.
  split; [reflexivity|]. split; [reflexivity|].
  destruct (thermal_summary_lists_the_record (sample_env all_pass) sample_recorded
              eq_refl eq_refl)
    as (st' & Hrun & _ & _ & Hfile & _).
  exists st'. split; [exact Hrun|]. refine (eq_trans Hfile _). vm_compute. reflexivity.
Defined.
